(** * Home.jsx: a username-gated to-do list client

    A shallow embedding of [src/js/components/Home.jsx].  The file holds two
    renditions of the [Home] component: a single-component one (module
    [Monolith], source lines 1-270) and a componentised one with a
    [todoAPI] service object (module [Split], source lines 271-640).

    Modelling conventions:
    - a JavaScript value is a [jsval]; numbers are restricted to integers;
    - a string is a sequence of code units below 256;
    - an async handler is a computation in the monad [M]: it threads the
      component state and the browser ([World]) and may throw;
    - the server is an oracle: the n-th request issued by the page is
      answered by [network w n], so every theorem quantified over the
      world covers every possible behaviour of the server;
    - a handler reads the props and state variables of the render that
      created it (its closure), passed here as the first argument;
    - a handler runs to its end before another event is handled. *)

From Stdlib Require Import ZArith String Ascii List Bool Lia.
From stdpp Require Import base strings gmap list.

Set Warnings "-register-all".

Local Open Scope string_scope.
Local Open Scope list_scope.

(** ** Strings *)

(** ECMAScript WhiteSpace and LineTerminator code units below 256:
    TAB, LF, VT, FF, CR, SPACE and NBSP. *)
Definition is_whitespace (c : ascii) : bool :=
  let n := nat_of_ascii c in
  ((9 <=? n)%nat && (n <=? 13)%nat) || (n =? 32)%nat || (n =? 160)%nat.

Fixpoint trimStart (s : string) : string :=
  match s with
  | EmptyString => EmptyString
  | String c s' => if is_whitespace c then trimStart s' else s
  end.

Fixpoint trimEnd (s : string) : string :=
  match s with
  | EmptyString => EmptyString
  | String c s' =>
      match trimEnd s' with
      | EmptyString => if is_whitespace c then EmptyString else String c EmptyString
      | t => String c t
      end
  end.

(** [String.prototype.trim] *)
Definition trim (s : string) : string := trimEnd (trimStart s).

(** A string made of whitespace only (the empty string included). *)
Fixpoint blank (s : string) : bool :=
  match s with
  | EmptyString => true
  | String c s' => is_whitespace c && blank s'
  end.

(** [s === ''] *)
Definition is_empty (s : string) : bool :=
  match s with EmptyString => true | _ => false end.

(** ** JavaScript values *)

Inductive jsval : Type :=
| JUndefined
| JNull
| JBool (b : bool)
| JNum (n : Z)
| JStr (s : string)
| JArr (elements : list jsval)
| JObj (fields : list (string * jsval)).

(** ToBoolean *)
Definition truthy (v : jsval) : bool :=
  match v with
  | JUndefined | JNull => false
  | JBool b => b
  | JNum n => negb (n =? 0)%Z
  | JStr s => negb (is_empty s)
  | JArr _ | JObj _ => true
  end.

(** [a || b] *)
Definition js_or (a b : jsval) : jsval := if truthy a then a else b.

(** The property names the program reads. *)
Inductive propname := p_todos | p_length | p_id.

Definition propname_key (p : propname) : string :=
  match p with
  | p_todos => "todos"
  | p_length => "length"
  | p_id => "id"
  end.

(** Own property of an object built by [JSON.parse]: the last binding of
    a repeated key wins; a missing key reads [undefined]. *)
Definition obj_get (fields : list (string * jsval)) (k : string) : jsval :=
  fold_left (fun acc kv => if String.eqb (fst kv) k then snd kv else acc)
            fields JUndefined.

(** [v.p] for the three property names above.  [None] is the TypeError of
    reading a property of [undefined] or [null]. *)
Definition get_prop (v : jsval) (p : propname) : option jsval :=
  match v with
  | JUndefined | JNull => None
  | JBool _ | JNum _ => Some JUndefined
  | JStr s =>
      Some match p with
           | p_length => JNum (Z.of_nat (String.length s))
           | _ => JUndefined
           end
  | JArr l =>
      Some match p with
           | p_length => JNum (Z.of_nat (length l))
           | _ => JUndefined
           end
  | JObj fields => Some (obj_get fields (propname_key p))
  end.

(** [v?.p] *)
Definition get_prop_opt (v : jsval) (p : propname) : jsval :=
  match get_prop v p with
  | Some x => x
  | None => JUndefined
  end.

(** [v > 0] where the coercion of [v] to a number is decided without
    parsing: [undefined] is NaN, [null] is 0, booleans are 0 and 1.
    [None] for strings, arrays and objects, whose coercion is not
    modelled. *)
Definition js_gt_zero (v : jsval) : option bool :=
  match v with
  | JUndefined | JNull => Some false
  | JBool b => Some b
  | JNum n => Some (0 <? n)%Z
  | JStr _ | JArr _ | JObj _ => None
  end.

(** ** The browser: network, console, session storage, dialogs *)

Inductive Request : Type :=
| GET_user (username : string)
| POST_user (username : string)
| POST_todo (username : string) (label : string) (is_done : bool)
| DELETE_todo (id : jsval).

Record Response := mkResponse { status : Z; body : option jsval }.

(** [response.ok]: the status is in the range 200-299. *)
Definition ok (r : Response) : bool :=
  (200 <=? status r)%Z && (status r <=? 299)%Z.

(** The settled state of the promise returned by [fetch]: it rejects on a
    network failure only, and fulfils with the response otherwise,
    whatever the HTTP status. *)
Inductive Settled : Type :=
| Rejected
| Fulfilled (r : Response).

Record World := mkWorld {
  network : nat -> Settled;
  requests : list Request;
  console : list string;
  sessionStorage : gmap string string;
  confirm_answers : nat -> bool;
  confirm_shown : nat
}.

(** The world after one more request has been issued. *)
Definition with_request (r : Request) (w : World) : World :=
  mkWorld (network w) (requests w ++ [r]) (console w)
          (sessionStorage w) (confirm_answers w) (confirm_shown w).

(** The world after one more line on the console. *)
Definition with_console (message : string) (w : World) : World :=
  mkWorld (network w) (requests w) (console w ++ [message])
          (sessionStorage w) (confirm_answers w) (confirm_shown w).

(** The world with another content of the session storage. *)
Definition with_storage (st : gmap string string) (w : World) : World :=
  mkWorld (network w) (requests w) (console w)
          st (confirm_answers w) (confirm_shown w).

(** The world after the requests [rs] have been issued, in this order. *)
Definition with_requests (rs : list Request) (w : World) : World :=
  mkWorld (network w) (requests w ++ rs) (console w)
          (sessionStorage w) (confirm_answers w) (confirm_shown w).

(** The world after one more confirmation dialog has been shown. *)
Definition with_dialog (w : World) : World :=
  mkWorld (network w) (requests w) (console w) (sessionStorage w)
          (confirm_answers w) (Datatypes.S (confirm_shown w)).

(** ** The monad of handlers *)

Inductive exn : Type :=
| TypeError
| NetworkError
| SyntaxError
| Error (message : string).

Inductive outcome (A : Type) : Type :=
| Return (a : A)
| Throw (e : exn).
Arguments Return {A} a.
Arguments Throw {A} e.

Definition M (S A : Type) : Type := S -> World -> outcome A * S * World.

Definition ret {S A} (a : A) : M S A := fun s w => (Return a, s, w).

Definition throw {S A} (e : exn) : M S A := fun s w => (Throw e, s, w).

Definition bind {S A B} (m : M S A) (k : A -> M S B) : M S B :=
  fun s w =>
    match m s w with
    | (Return a, s', w') => k a s' w'
    | (Throw e, s', w') => (Throw e, s', w')
    end.

(** The three components of a run. *)
Definition outcome_of {S A} (r : outcome A * S * World) : outcome A := fst (fst r).
Definition state_after {S A} (r : outcome A * S * World) : S := snd (fst r).
Definition world_after {S A} (r : outcome A * S * World) : World := snd r.

Declare Scope js_scope.
Delimit Scope js_scope with js.
Notation "'let*' x ':=' m 'in' k" := (bind m (fun x => k))
  (at level 10, x name, m at level 100, k at level 200) : js_scope.
Notation "m ';;' k" := (bind m (fun _ => k))
  (at level 100, k at level 200, right associativity) : js_scope.
Local Open Scope js_scope.

(** [try { body } catch (err) { handler }] *)
Definition try_catch {S A} (body : M S A) (handler : exn -> M S A) : M S A :=
  fun s w =>
    match body s w with
    | (Return a, s', w') => (Return a, s', w')
    | (Throw e, s', w') => handler e s' w'
    end.

(** [try { body } finally { final }]: [final] always runs; the outcome is
    that of [body] unless [final] itself throws. *)
Definition try_finally {S A} (body : M S A) (final : M S unit) : M S A :=
  fun s w =>
    match body s w with
    | (r, s', w') =>
        match final s' w' with
        | (Return _, s'', w'') => (r, s'', w'')
        | (Throw e, s'', w'') => (Throw e, s'', w'')
        end
    end.

(** [try { body } catch (err) { handler } finally { final }] *)
Definition try_catch_finally {S A}
    (body : M S A) (handler : exn -> M S A) (final : M S unit) : M S A :=
  try_finally (try_catch body handler) final.

(** A state setter returned by [useState]. *)
Definition set_state {S} (f : S -> S) : M S unit :=
  fun s w => (Return tt, f s, w).

(** Runs a computation of a child component's state inside a larger state. *)
Definition zoom {S T A} (get : T -> S) (put : S -> T -> T) (m : M S A) : M T A :=
  fun t w =>
    match m (get t) w with
    | (r, s', w') => (r, put s' t, w')
    end.

(** [fetch(...)] without [await]: the request is issued and a promise
    comes back; how it settles is the server's answer to this request. *)
Definition fetch_start {S} (r : Request) : M S Settled :=
  fun s w => (Return (network w (length (requests w))), s, with_request r w).

(** [await p] *)
Definition await {S} (p : Settled) : M S Response :=
  match p with
  | Rejected => throw NetworkError
  | Fulfilled r => ret r
  end.

(** [await fetch(...)] *)
Definition fetch {S} (r : Request) : M S Response :=
  let* p := fetch_start r in await p.

(** [await response.json()]: rejects when the body is not JSON. *)
Definition json {S} (r : Response) : M S jsval :=
  match body r with
  | Some v => ret v
  | None => throw SyntaxError
  end.

(** [await Promise.all(promises)]: rejects as soon as one promise
    rejects, fulfils with all the responses otherwise. *)
Fixpoint all_fulfilled (ps : list Settled) : option (list Response) :=
  match ps with
  | [] => Some []
  | Rejected :: _ => None
  | Fulfilled r :: ps' =>
      match all_fulfilled ps' with
      | Some rs => Some (r :: rs)
      | None => None
      end
  end.

Definition Promise_all {S} (ps : list Settled) : M S (list Response) :=
  match all_fulfilled ps with
  | Some rs => ret rs
  | None => throw NetworkError
  end.

Fixpoint mapM {S A B} (f : A -> M S B) (l : list A) : M S (list B) :=
  match l with
  | [] => ret []
  | x :: l' =>
      let* y := f x in
      let* ys := mapM f l' in
      ret (y :: ys)
  end.

(** [arr.map(callback)]: calling [map] on anything but an array is a
    TypeError (no other value built by [JSON.parse] has a callable
    [map]). *)
Definition array_map {S B} (arr : jsval) (callback : jsval -> M S B) : M S (list B) :=
  match arr with
  | JArr l => mapM callback l
  | _ => throw TypeError
  end.

(** [v.p] as a computation. *)
Definition read_prop {S} (v : jsval) (p : propname) : M S jsval :=
  match get_prop v p with
  | Some x => ret x
  | None => throw TypeError
  end.

(** A call of an async function whose promise is dropped: the caller
    goes on whether or not the callee ends by throwing. *)
Definition floating {S A} (m : M S A) : M S unit :=
  fun s w =>
    match m s w with
    | (_, s', w') => (Return tt, s', w')
    end.

(** [console.error(message, err)] *)
Definition console_error {S} (message : string) : M S unit :=
  fun s w => (Return tt, s, with_console message w).

(** [sessionStorage.setItem(key, value)] *)
Definition sessionStorage_setItem {S} (key value : string) : M S unit :=
  fun s w => (Return tt, s, with_storage (<[key := value]> (sessionStorage w)) w).

(** [sessionStorage.getItem(key)] *)
Definition sessionStorage_getItem {S} (key : string) : M S (option string) :=
  fun s w => (Return (sessionStorage w !! key), s, w).

(** [sessionStorage.removeItem(key)] *)
Definition sessionStorage_removeItem {S} (key : string) : M S unit :=
  fun s w => (Return tt, s, with_storage (delete key (sessionStorage w)) w).

(** [window.confirm(message)]: the user's answer to the n-th dialog. *)
Definition window_confirm {S} (message : string) : M S bool :=
  fun s w =>
    (Return (confirm_answers w (confirm_shown w)), s,
     mkWorld (network w) (requests w) (console w) (sessionStorage w)
             (confirm_answers w) (Datatypes.S (confirm_shown w))).

(** ** Rendered buttons *)

(** A [<button disabled={...} onClick={...}>]. *)
Record Button (S : Type) := mkButton {
  btn_disabled : bool;
  btn_onClick : M S unit
}.
Arguments mkButton {S} _ _.
Arguments btn_disabled {S} _.
Arguments btn_onClick {S} _.

(** A click on a piece of the rendered tree: nothing happens when the
    button is not rendered or is disabled. *)
Definition click {S} (b : option (Button S)) : M S unit :=
  match b with
  | Some b => if btn_disabled b then ret tt else btn_onClick b
  | None => ret tt
  end.

(** ** The single-component [Home] (source lines 1-270) *)

Module Monolith.

Record State := mkState {
  tasks : jsval;
  inputTaskValue : string;
  totalTasksCreated : jsval;
  loading : bool;
  error : string;
  username : string;
  isUserSet : bool
}.

(** The [useState] initial values. *)
Definition initial : State :=
  mkState (JArr []) "" (JNum 0) false "" "" false.

Definition setTasks (v : jsval) : M State unit :=
  set_state (fun s => mkState v (inputTaskValue s) (totalTasksCreated s)
                              (loading s) (error s) (username s) (isUserSet s)).
Definition setInputTaskValue (v : string) : M State unit :=
  set_state (fun s => mkState (tasks s) v (totalTasksCreated s)
                              (loading s) (error s) (username s) (isUserSet s)).
Definition setTotalTasksCreated (v : jsval) : M State unit :=
  set_state (fun s => mkState (tasks s) (inputTaskValue s) v
                              (loading s) (error s) (username s) (isUserSet s)).
Definition setLoading (v : bool) : M State unit :=
  set_state (fun s => mkState (tasks s) (inputTaskValue s) (totalTasksCreated s)
                              v (error s) (username s) (isUserSet s)).
Definition setError (v : string) : M State unit :=
  set_state (fun s => mkState (tasks s) (inputTaskValue s) (totalTasksCreated s)
                              (loading s) v (username s) (isUserSet s)).
Definition setUsername (v : string) : M State unit :=
  set_state (fun s => mkState (tasks s) (inputTaskValue s) (totalTasksCreated s)
                              (loading s) (error s) v (isUserSet s)).
Definition setIsUserSet (v : bool) : M State unit :=
  set_state (fun s => mkState (tasks s) (inputTaskValue s) (totalTasksCreated s)
                              (loading s) (error s) (username s) v).

(** The state once a load has succeeded with [todos]. *)
Definition loaded (todos : jsval) (s : State) : State :=
  mkState (js_or todos (JArr [])) (inputTaskValue s)
          (js_or (get_prop_opt todos p_length) (JNum 0))
          (loading s) "" (username s) (isUserSet s).

(** The state showing the error [message]. *)
Definition failed (message : string) (s : State) : State :=
  mkState (tasks s) (inputTaskValue s) (totalTasksCreated s)
          (loading s) message (username s) (isUserSet s).

(** The state of a handler at work: loading, no error shown. *)
Definition busy (s : State) : State :=
  mkState (tasks s) (inputTaskValue s) (totalTasksCreated s)
          true "" (username s) (isUserSet s).

(** The state once the handler is done. *)
Definition idle (s : State) : State :=
  mkState (tasks s) (inputTaskValue s) (totalTasksCreated s)
          false (error s) (username s) (isUserSet s).

(** The state with the input box emptied. *)
Definition input_cleared (s : State) : State :=
  mkState (tasks s) "" (totalTasksCreated s)
          (loading s) (error s) (username s) (isUserSet s).

(** The run of a handler that gave up: [message] is shown, [log] is
    written on the console, the loading state is left. *)
Definition aborted (message log : string) (s : State) (w : World)
  : outcome unit * State * World :=
  (Return tt, idle (failed message (busy s)), with_console log w).

(** The "Current Tasks" figure of the counter box: [tasks.length]. *)
Definition currentTasks (s : State) : option jsval := get_prop (tasks s) p_length.

Section Render.

(** The state variables captured by the handlers of one render. *)
Variable render : State.

Definition loadTasks : M State unit :=
  try_catch
    (setError "" ;;
     let* response := fetch (GET_user (username render)) in
     (if negb (ok response) then throw (Error "Failed to fetch tasks") else ret tt) ;;
     let* userData := json response in
     let* todos := read_prop userData p_todos in
     setTasks (js_or todos (JArr [])) ;;
     let* todos' := read_prop userData p_todos in
     setTotalTasksCreated (js_or (get_prop_opt todos' p_length) (JNum 0)))
    (fun err =>
       setError "Failed to load tasks. Please try again." ;;
       console_error "Error loading tasks:").

Definition initializeUser : M State unit :=
  try_catch_finally
    (setLoading true ;;
     setError "" ;;
     let* response := fetch (GET_user (username render)) in
     (if (status response =? 404)%Z
      then (let* created := fetch (POST_user (username render)) in ret tt)
      else ret tt) ;;
     loadTasks)
    (fun err =>
       setError "Failed to initialize user. Please try again." ;;
       console_error "Error initializing user:")
    (setLoading false).

(** The effect run when [isUserSet] or [username] changes. *)
Definition effect : M State unit :=
  if isUserSet render && negb (is_empty (username render))
  then floating initializeUser
  else ret tt.

Definition handleUsernameSubmit : M State unit :=
  if negb (is_empty (trim (username render)))
  then setIsUserSet true
  else ret tt.

Definition handleInputChange (value : string) : M State unit :=
  setInputTaskValue value.

Definition addTask : M State unit :=
  if is_empty (trim (inputTaskValue render)) then ret tt
  else
    try_catch_finally
      (setLoading true ;;
       setError "" ;;
       let* response :=
         fetch (POST_todo (username render) (trim (inputTaskValue render)) false) in
       (if negb (ok response) then throw (Error "Failed to add task") else ret tt) ;;
       setInputTaskValue "" ;;
       loadTasks)
      (fun err =>
         setError "Failed to add task. Please try again." ;;
         console_error "Error adding task:")
      (setLoading false).

Definition handleKeyDown (key : string) : M State unit :=
  if String.eqb key "Enter" then floating addTask else ret tt.

Definition deleteTask (taskId : jsval) : M State unit :=
  try_catch_finally
    (setLoading true ;;
     setError "" ;;
     let* response := fetch (DELETE_todo taskId) in
     (if negb (ok response) then throw (Error "Failed to delete task") else ret tt) ;;
     loadTasks)
    (fun err =>
       setError "Failed to delete task. Please try again." ;;
       console_error "Error deleting task:")
    (setLoading false).

Definition clearAllTasks : M State unit :=
  try_catch_finally
    (setLoading true ;;
     setError "" ;;
     let* deletePromises :=
       array_map (tasks render)
         (fun task =>
            let* id := read_prop task p_id in
            fetch_start (DELETE_todo id)) in
     let* responses := Promise_all deletePromises in
     loadTasks)
    (fun err =>
       setError "Failed to clear all tasks. Please try again." ;;
       console_error "Error clearing all tasks:")
    (setLoading false).

(** What the component shows: the username form until [isUserSet]. *)
Inductive Screen := UsernameFormScreen | TodoScreen.

Definition screen : Screen :=
  if negb (isUserSet render) then UsernameFormScreen else TodoScreen.

(** The Add button of the input section. *)
Definition AddButton : Button State :=
  mkButton (loading render || is_empty (trim (inputTaskValue render))) addTask.

(** [{tasks.length > 0 && (<button onClick={clearAllTasks} ...>)}].  The
    outer [None] stands for a render that throws or whose comparison
    needs a coercion outside the model. *)
Definition ClearAllButton : option (option (Button State)) :=
  match get_prop (tasks render) p_length with
  | None => None
  | Some len =>
      match js_gt_zero len with
      | None => None
      | Some true => Some (Some (mkButton (loading render) clearAllTasks))
      | Some false => Some None
      end
  end.

(** The button of the list item of [task]:
    [<button onClick={() => deleteTask(task.id)} disabled={loading}>]. *)
Definition DeleteButton (task : jsval) : Button State :=
  mkButton (loading render)
           (let* id := read_prop task p_id in floating (deleteTask id)).

End Render.

(** The user's click on the delete button of [task]. *)
Definition click_Delete (s : State) (task : jsval) (w : World)
  : outcome unit * State * World :=
  click (Some (DeleteButton s task)) s w.

(** The user's attempt to clear all tasks on the screen rendered from
    [s]. *)
Definition click_ClearAll (s : State) (w : World)
  : option (outcome unit * State * World) :=
  match ClearAllButton s with
  | None => None
  | Some b => Some (click b s w)
  end.

(** The user's click on Add. *)
Definition click_Add (s : State) (w : World)
  : outcome unit * State * World :=
  click (Some (AddButton s)) s w.

End Monolith.

(** ** The componentised [Home] (source lines 271-640) *)

Module Split.

(** *** The API service *)

Module todoAPI.

Definition initializeUser {S} (username : string) : M S unit :=
  let* response := fetch (GET_user username) in
  if (status response =? 404)%Z
  then (let* created := fetch (POST_user username) in ret tt)
  else ret tt.

Definition getUserTasks {S} (username : string) : M S jsval :=
  let* response := fetch (GET_user username) in
  (if negb (ok response) then throw (Error "Failed to fetch tasks") else ret tt) ;;
  json response.

Definition addTask {S} (username taskText : string) : M S jsval :=
  let* response := fetch (POST_todo username taskText false) in
  (if negb (ok response) then throw (Error "Failed to add task") else ret tt) ;;
  json response.

Definition deleteTask {S} (taskId : jsval) : M S unit :=
  let* response := fetch (DELETE_todo taskId) in
  if negb (ok response) then throw (Error "Failed to delete task") else ret tt.

Definition clearAllTasks {S} (tasks : jsval) : M S unit :=
  let* deletePromises :=
    array_map tasks
      (fun task =>
         let* id := read_prop task p_id in
         fetch_start (DELETE_todo id)) in
  let* responses := Promise_all deletePromises in
  ret tt.

End todoAPI.

(** *** [TodoApp] *)

Record TodoApp := mkTodoApp {
  tasks : jsval;
  totalTasksCreated : jsval;
  loading : bool;
  error : string
}.

Definition TodoApp_initial : TodoApp := mkTodoApp (JArr []) (JNum 0) false "".

Definition setTasks (v : jsval) : M TodoApp unit :=
  set_state (fun s => mkTodoApp v (totalTasksCreated s) (loading s) (error s)).
Definition setTotalTasksCreated (v : jsval) : M TodoApp unit :=
  set_state (fun s => mkTodoApp (tasks s) v (loading s) (error s)).
Definition setLoading (v : bool) : M TodoApp unit :=
  set_state (fun s => mkTodoApp (tasks s) (totalTasksCreated s) v (error s)).
Definition setError (v : string) : M TodoApp unit :=
  set_state (fun s => mkTodoApp (tasks s) (totalTasksCreated s) (loading s) v).

(** The state once a load has succeeded with [todos]. *)
Definition loaded (todos : jsval) (s : TodoApp) : TodoApp :=
  mkTodoApp (js_or todos (JArr []))
            (js_or (get_prop_opt todos p_length) (JNum 0)) (loading s) "".

(** The state showing the error [message]. *)
Definition failed (message : string) (s : TodoApp) : TodoApp :=
  mkTodoApp (tasks s) (totalTasksCreated s) (loading s) message.

(** The state of a handler at work: loading, no error shown. *)
Definition busy (s : TodoApp) : TodoApp :=
  mkTodoApp (tasks s) (totalTasksCreated s) true "".

(** The state once the handler is done. *)
Definition idle (s : TodoApp) : TodoApp :=
  mkTodoApp (tasks s) (totalTasksCreated s) false (error s).

(** The run of a handler that gave up: [message] is shown, [log] is
    written on the console, the loading state is left. *)
Definition aborted (message log : string) (s : TodoApp) (w : World)
  : outcome unit * TodoApp * World :=
  (Return tt, idle (failed message (busy s)), with_console log w).

(** The [currentCount] prop of [TaskCounter]: [tasks.length]. *)
Definition currentTasks (s : TodoApp) : option jsval := get_prop (tasks s) p_length.

(** [<ClearAllButton onClearAll hasTasks disabled />] *)
Definition ClearAllButton {S} (onClearAll : M S unit) (hasTasks disabled : bool)
  : option (Button S) :=
  if negb hasTasks then None
  else
    Some (mkButton disabled
            (let* yes := window_confirm "Are you sure you want to clear all tasks?" in
             if yes then floating onClearAll else ret tt)).

Section TodoAppRender.

(** The prop and the state variables captured by the handlers of one
    render of [TodoApp]. *)
Variable username : string.
Variable render : TodoApp.

Definition loadTasks : M TodoApp unit :=
  try_catch
    (setError "" ;;
     let* userData := todoAPI.getUserTasks username in
     let* todos := read_prop userData p_todos in
     setTasks (js_or todos (JArr [])) ;;
     let* todos' := read_prop userData p_todos in
     setTotalTasksCreated (js_or (get_prop_opt todos' p_length) (JNum 0)))
    (fun err =>
       setError "Failed to load tasks. Please try again." ;;
       console_error "Error loading tasks:").

Definition initializeUser : M TodoApp unit :=
  try_catch_finally
    (setLoading true ;;
     setError "" ;;
     todoAPI.initializeUser username ;;
     loadTasks)
    (fun err =>
       setError "Failed to initialize user. Please try again." ;;
       console_error "Error initializing user:")
    (setLoading false).

(** The effect run on mount and when [username] changes. *)
Definition TodoApp_effect : M TodoApp unit := floating initializeUser.

Definition handleAddTask (taskText : string) : M TodoApp unit :=
  try_catch_finally
    (setLoading true ;;
     setError "" ;;
     let* added := todoAPI.addTask username taskText in
     loadTasks)
    (fun err =>
       setError "Failed to add task. Please try again." ;;
       console_error "Error adding task:")
    (setLoading false).

Definition handleDeleteTask (taskId : jsval) : M TodoApp unit :=
  try_catch_finally
    (setLoading true ;;
     setError "" ;;
     todoAPI.deleteTask taskId ;;
     loadTasks)
    (fun err =>
       setError "Failed to delete task. Please try again." ;;
       console_error "Error deleting task:")
    (setLoading false).

Definition handleClearAll : M TodoApp unit :=
  try_catch_finally
    (setLoading true ;;
     setError "" ;;
     todoAPI.clearAllTasks (tasks render) ;;
     loadTasks)
    (fun err =>
       setError "Failed to clear all tasks. Please try again." ;;
       console_error "Error clearing all tasks:")
    (setLoading false).

(** The [ClearAllButton] element of the render, with
    [hasTasks={tasks.length > 0}].  The outer [None] stands for a render
    that throws or whose comparison needs a coercion outside the
    model. *)
Definition TodoApp_ClearAllButton : option (option (Button TodoApp)) :=
  match get_prop (tasks render) p_length with
  | None => None
  | Some len =>
      match js_gt_zero len with
      | None => None
      | Some hasTasks => Some (ClearAllButton handleClearAll hasTasks (loading render))
      end
  end.

End TodoAppRender.

(** The user's attempt to clear all tasks on the [TodoApp] rendered from
    [s]. *)
Definition click_ClearAll (username : string) (s : TodoApp) (w : World)
  : option (outcome unit * TodoApp * World) :=
  match TodoApp_ClearAllButton username s with
  | None => None
  | Some b => Some (click b s w)
  end.

(** *** [TaskItem]

    The button of [<TaskItem task onDelete disabled />]:
    [<button onClick={() => onDelete(task.id)} disabled={disabled}>]. *)
Definition TaskItem_DeleteButton {S} (task : jsval)
    (onDelete : jsval -> M S unit) (disabled : bool) : Button S :=
  mkButton disabled
           (let* id := read_prop task p_id in floating (onDelete id)).

(** The user's click on the delete button of [task] in the [TaskList]
    of the [TodoApp] rendered from [s], with
    [onDeleteTask={handleDeleteTask}] and [disabled={loading}]. *)
Definition click_Delete (username : string) (s : TodoApp) (task : jsval)
    (w : World) : outcome unit * TodoApp * World :=
  click (Some (TaskItem_DeleteButton task (handleDeleteTask username)
                                     (loading s))) s w.

(** *** [TaskInput]

    Its own state is [inputValue]; the state of the parent that owns
    [onAddTask] is the first component of the pair. *)
Section TaskInputRender.

Context {P : Type}.
Variable onAddTask : string -> M P unit.
Variable disabled : bool.
Variable inputValue : string.

Definition setInputValue (v : string) : M (P * string) unit :=
  set_state (fun s => (fst s, v)).

Definition TaskInput_handleSubmit : M (P * string) unit :=
  if is_empty (trim inputValue) then ret tt
  else
    zoom fst (fun p s => (p, snd s)) (floating (onAddTask (trim inputValue))) ;;
    setInputValue "".

Definition TaskInput_handleKeyDown (key : string) : M (P * string) unit :=
  if String.eqb key "Enter" then TaskInput_handleSubmit else ret tt.

Definition TaskInput_AddButton : Button (P * string) :=
  mkButton (disabled || is_empty (trim inputValue)) TaskInput_handleSubmit.

End TaskInputRender.

(** [<TaskInput onAddTask={handleAddTask} disabled={loading} />] inside
    the [TodoApp] of user [username]: the user submits the input box. *)
Definition submit_task (username : string) (s : TodoApp * string) (w : World)
  : outcome unit * (TodoApp * string) * World :=
  TaskInput_handleSubmit (handleAddTask username) (snd s) s w.

(** *** [UsernameForm] and [Home] *)

Record Home := mkHome {
  username : string;
  isUserSet : bool
}.

Definition Home_initial : Home := mkHome "" false.

Definition setUsername (v : string) : M Home unit :=
  set_state (fun s => mkHome v (isUserSet s)).
Definition setIsUserSet (v : bool) : M Home unit :=
  set_state (fun s => mkHome (username s) v).

(** [UsernameForm]'s submit handler, with its state [inputUsername]. *)
Definition UsernameForm_handleSubmit {P}
    (onSubmit : string -> M P unit) (inputUsername : string) : M P unit :=
  if negb (is_empty (trim inputUsername))
  then onSubmit (trim inputUsername)
  else ret tt.

(** The mount effect of [Home]. *)
Definition Home_mount : M Home unit :=
  let* savedUsername := sessionStorage_getItem "todoUsername" in
  match savedUsername with
  | Some saved =>
      if negb (is_empty saved)
      then (setUsername saved ;; setIsUserSet true)
      else ret tt
  | None => ret tt
  end.

Definition handleUsernameSubmit (newUsername : string) : M Home unit :=
  sessionStorage_setItem "todoUsername" newUsername ;;
  setUsername newUsername ;;
  setIsUserSet true.

Definition handleLogout : M Home unit :=
  sessionStorage_removeItem "todoUsername" ;;
  setUsername "" ;;
  setIsUserSet false.

(** What [Home] shows: [UsernameForm] until [isUserSet], then the
    [TodoApp] of the current username. *)
Inductive Screen :=
| UsernameFormScreen
| TodoAppScreen (username : string).

Definition screen (h : Home) : Screen :=
  if negb (isUserSet h) then UsernameFormScreen else TodoAppScreen (username h).

(** The user submits the username form showing [inputUsername]. *)
Definition submit_username (inputUsername : string) : M Home unit :=
  UsernameForm_handleSubmit handleUsernameSubmit inputUsername.

End Split.

(** ** Describing a run by the answers of the server *)

(** The [todos] property carried by the answer to a request: there is one
    when the promise is fulfilled, the response is ok, its body is JSON
    and the parsed value is neither [null] nor [undefined]. *)
Definition fetched_todos (p : Settled) : option jsval :=
  match p with
  | Rejected => None
  | Fulfilled r =>
      if ok r then
        match body r with
        | Some userData => get_prop userData p_todos
        | None => None
        end
      else None
  end.

(** The DELETE requests that mapping over the tasks [l] issues: one per
    task, up to the first task whose [id] cannot be read. *)
Fixpoint delete_requests (l : list jsval) : list Request :=
  match l with
  | [] => []
  | task :: l' =>
      match get_prop task p_id with
      | Some id => DELETE_todo id :: delete_requests l'
      | None => []
      end
  end.

(** Every task is a value whose [id] can be read. *)
Fixpoint have_ids (l : list jsval) : bool :=
  match l with
  | [] => true
  | task :: l' =>
      match get_prop task p_id with
      | Some _ => have_ids l'
      | None => false
      end
  end.

(** The answers to the [k] requests issued from position [n] on. *)
Definition replies (w : World) (n k : nat) : list Settled :=
  map (network w) (seq n k).

(** The requests that [initializeUser] issues after its first GET, by the
    answer [first] to that GET and the answer [second] to the request
    after it: the POST on a 404, then the GET of [loadTasks] unless a
    request was rejected. *)
Definition requests_after_GET (u : string) (first second : Settled)
  : list Request :=
  match first with
  | Rejected => []
  | Fulfilled r =>
      if (status r =? 404)%Z then
        POST_user u ::
        match second with
        | Rejected => []
        | Fulfilled _ => [GET_user u]
        end
      else [GET_user u]
  end.

(** The page has issued [sent] and then re-fetched the user [u]; the
    answer to that last GET carried [todos], and [shown] and [total] are
    what [todos] makes of the list and of the counter. *)
Definition refetched (u : string) (sent : list Request) (w w' : World)
    (shown total : jsval) : Prop :=
  requests w' = requests w ++ sent ++ [GET_user u] /\
  exists todos,
    fetched_todos (network w (length (requests w ++ sent))) = Some todos /\
    shown = js_or todos (JArr []) /\
    total = js_or (get_prop_opt todos p_length) (JNum 0).

(** The part of the state of the single component that [TodoApp] holds
    in the componentised rendition. *)
Definition TodoApp_of (s : Monolith.State) : Split.TodoApp :=
  Split.mkTodoApp (Monolith.tasks s) (Monolith.totalTasksCreated s)
                  (Monolith.loading s) (Monolith.error s).

(** A run seen through a view of its state. *)
Definition map_state {S T A} (f : S -> T) (r : outcome A * S * World)
  : outcome A * T * World :=
  (outcome_of r, f (state_after r), world_after r).

(** The requests issued during a run that started in [w] and ended in
    [w']: what the log has gained. *)
Definition issued (w w' : World) : list Request :=
  drop (length (requests w)) (requests w').

(** The browser is the same up to the request log and the console. *)
Definition only_log_and_console (w w' : World) : Prop :=
  network w' = network w /\
  sessionStorage w' = sessionStorage w /\
  confirm_answers w' = confirm_answers w /\
  confirm_shown w' = confirm_shown w.

(** The user of the single component is the same. *)
Definition same_user (s s' : Monolith.State) : Prop :=
  Monolith.username s' = Monolith.username s /\
  Monolith.isUserSet s' = Monolith.isUserSet s.

(** The server answers as its API says: the [todos] of a user are an
    array, or are missing or null. *)
Definition todos_are_arrays (w : World) : Prop :=
  forall n todos,
    fetched_todos (network w n) = Some todos ->
    todos = JUndefined \/ todos = JNull \/ exists l, todos = JArr l.

(** The list shown is an array and "Total Tasks Created" is its
    length, which is also what "Current Tasks" shows. *)
Definition counters_agree (tasks total : jsval) : Prop :=
  exists l, tasks = JArr l /\ total = JNum (Z.of_nat (length l)).

(** ** Sample data *)

(** A task as the server returns it. *)
Definition sample_task (id : Z) (label : string) : jsval :=
  JObj [("id", JNum id); ("label", JStr label); ("is_done", JBool false)].

(** The body of a GET of the user [name]. *)
Definition sample_user (name : string) (todos : list jsval) : jsval :=
  JObj [("name", JStr name); ("todos", JArr todos)].

(** A browser that has issued no request yet, with an empty session
    storage, whose server gives [answers] in turn and is unreachable
    afterwards. *)
Definition scripted (answers : list Settled) : World :=
  mkWorld (fun n => nth n answers Rejected) [] [] ∅ (fun _ => true) 0.

(** The single-component page of user bob showing [todos], with [input]
    typed in the input box. *)
Definition bob_page (todos : list jsval) (input : string) : Monolith.State :=
  Monolith.mkState (JArr todos) input (JNum (Z.of_nat (length todos)))
                   false "" "bob" true.

(** The [TodoApp] showing [todos]. *)
Definition bob_app (todos : list jsval) : Split.TodoApp :=
  Split.mkTodoApp (JArr todos) (JNum (Z.of_nat (length todos))) false "".

(** * Verification *)

(** ** Strings *)

Lemma trimStart_blank s : blank s = true -> trimStart s = "".
Proof.
  induction s as [|c s IH]; simpl; [reflexivity|].
  intros [Hc Hs]%andb_prop. rewrite Hc. auto.
Qed.

Lemma trimStart_not_blank s :
  blank s = false ->
  exists c t, trimStart s = String c t /\ is_whitespace c = false.
Proof.
  induction s as [|c s IH]; simpl; [discriminate|].
  destruct (is_whitespace c) eqn:Hc; simpl.
  - auto.
  - intros _. exists c, s. auto.
Qed.

Lemma trimEnd_head c t :
  is_whitespace c = false -> is_empty (trimEnd (String c t)) = false.
Proof.
  intros Hc. simpl. destruct (trimEnd t); [rewrite Hc|]; reflexivity.
Qed.

(** Trimming leaves nothing exactly when the string is blank. *)
Lemma is_empty_trim s : is_empty (trim s) = blank s.
Proof.
  unfold trim. destruct (blank s) eqn:Hb.
  - rewrite trimStart_blank by assumption. reflexivity.
  - destruct (trimStart_not_blank s Hb) as (c & t & -> & Hc).
    apply trimEnd_head, Hc.
Qed.

Lemma is_empty_false s : s <> "" -> is_empty s = false.
Proof. destruct s; [congruence|reflexivity]. Qed.

(** ** Values *)

Lemma js_or_array l : js_or (JArr l) (JArr []) = JArr l.
Proof. reflexivity. Qed.

(** [todos?.length || 0] on an array is its length. *)
Lemma length_or_zero l :
  js_or (get_prop_opt (JArr l) p_length) (JNum 0) = JNum (Z.of_nat (length l)).
Proof. destruct l; reflexivity. Qed.

(** ** The request log and the answers *)

Lemma with_requests_nil w : with_requests [] w = w.
Proof. destruct w. unfold with_requests. simpl. rewrite app_nil_r. reflexivity. Qed.

Lemma with_requests_cons r rs w :
  with_requests rs (with_request r w) = with_requests (r :: rs) w.
Proof.
  unfold with_requests, with_request. simpl.
  rewrite <- app_assoc. reflexivity.
Qed.

Ltac world_eq :=
  unfold with_console, with_request, with_requests; cbn;
  rewrite <- ?app_assoc; reflexivity.

Lemma with_request_one r w : with_request r w = with_requests [r] w.
Proof. reflexivity. Qed.

Lemma with_request_two a b w :
  with_request b (with_request a w) = with_requests [a; b] w.
Proof. world_eq. Qed.

Lemma replies_with_request r w n k : replies (with_request r w) n k = replies w n k.
Proof. reflexivity. Qed.

Lemma replies_cons w n k : replies w n (S k) = network w n :: replies w (S n) k.
Proof. reflexivity. Qed.

Lemma replies_length w n k : length (replies w n k) = k.
Proof. unfold replies. rewrite length_map, length_seq. reflexivity. Qed.

Lemma replies_nth w n k i :
  (i < k)%nat -> nth i (replies w n k) Rejected = network w (n + i).
Proof.
  intros Hi. unfold replies.
  rewrite (nth_indep _ Rejected (network w 0))
    by (rewrite length_map, length_seq; lia).
  rewrite map_nth, seq_nth by lia. reflexivity.
Qed.

Lemma rejected_among_replies w n k i :
  (i < k)%nat -> network w (n + i) = Rejected -> In Rejected (replies w n k).
Proof.
  intros Hi Hrej. rewrite <- Hrej, <- (replies_nth w n k i Hi).
  apply nth_In. rewrite replies_length. exact Hi.
Qed.

Lemma fetched_todos_ok resp userData :
  ok resp = true -> body resp = Some userData ->
  fetched_todos (Fulfilled resp) = get_prop userData p_todos.
Proof. intros Hok Hb. simpl. rewrite Hok, Hb. reflexivity. Qed.

Lemma fetched_todos_failed p :
  p = Rejected \/ (exists resp, p = Fulfilled resp /\ ok resp = false) ->
  fetched_todos p = None.
Proof.
  intros [->|(resp & -> & Hok)]; simpl; [reflexivity|].
  rewrite Hok. reflexivity.
Qed.

(** ** [Promise.all] over the DELETE requests *)

Lemma delete_requests_length l :
  have_ids l = true -> length (delete_requests l) = length l.
Proof.
  induction l as [|t l IH]; simpl; [reflexivity|].
  destruct (get_prop t p_id); [|discriminate].
  intros H. simpl. rewrite IH by assumption. reflexivity.
Qed.

(** Mapping the DELETE callback over the tasks issues the requests in
    order and yields the promises of their answers, or stops with a
    TypeError at the first task without properties. *)
Lemma mapM_delete {S} (l : list jsval) (s : S) (w : World) :
  mapM (fun task =>
          let* id := read_prop task p_id in
          fetch_start (DELETE_todo id)) l s w =
  (if have_ids l
   then Return (replies w (length (requests w)) (length l))
   else Throw TypeError,
   s, with_requests (delete_requests l) w).
Proof.
  revert w. induction l as [|t l IH]; intros w.
  - simpl. unfold ret. rewrite with_requests_nil. reflexivity.
  - cbn [mapM have_ids delete_requests length].
    unfold bind at 1. unfold bind at 1. unfold read_prop.
    destruct (get_prop t p_id) as [id|].
    + unfold ret at 1, fetch_start at 1.
      unfold bind at 1. rewrite IH.
      rewrite with_requests_cons, replies_with_request.
      cbn [requests with_request]. rewrite length_app. cbn [length].
      rewrite Nat.add_1_r, replies_cons.
      destruct (have_ids l); reflexivity.
    + unfold throw. rewrite with_requests_nil. reflexivity.
Qed.

Lemma all_fulfilled_rejected ps : In Rejected ps -> all_fulfilled ps = None.
Proof.
  induction ps as [|p ps IH]; simpl; [tauto|].
  intros [->|H]; [reflexivity|].
  destruct p; [reflexivity|]. rewrite IH by assumption. reflexivity.
Qed.

Lemma all_fulfilled_none ps : all_fulfilled ps = None -> In Rejected ps.
Proof.
  induction ps as [|p ps IH]; simpl; [discriminate|].
  destruct p; [auto|].
  destruct (all_fulfilled ps); [discriminate|auto].
Qed.

(** ** What each handler does, by the answers of the server *)

Ltac unfold_js :=
  unfold try_catch_finally, fetch, array_map, Promise_all;
  unfold try_finally, try_catch, bind, fetch_start, await, json, read_prop,
    throw, ret, set_state, console_error, floating, zoom.

Module MonolithFacts.
Import Monolith.

Lemma loadTasks_run env s w :
  loadTasks env s w =
  match fetched_todos (network w (length (requests w))) with
  | Some todos =>
      (Return tt, loaded todos s, with_request (GET_user (username env)) w)
  | None =>
      (Return tt, failed "Failed to load tasks. Please try again." s,
       with_console "Error loading tasks:"
         (with_request (GET_user (username env)) w))
  end.
Proof.
  unfold loadTasks, setError, setTasks, setTotalTasksCreated, fetched_todos.
  unfold_js. simpl.
  destruct (network w (length (requests w))) as [|r]; simpl; [reflexivity|].
  destruct (ok r); simpl; [|reflexivity].
  destruct (body r) as [v|]; simpl; [|reflexivity].
  destruct (get_prop v p_todos) as [t|]; simpl; reflexivity.
Qed.

(** [loadTasks] catches everything it throws. *)
Lemma loadTasks_returns env s w : outcome_of (loadTasks env s w) = Return tt.
Proof. rewrite loadTasks_run. destruct (fetched_todos _); reflexivity. Qed.

(** The tail shared by the handlers: load the tasks, then leave the
    loading state. *)
Lemma reload_run env s w :
  try_finally (loadTasks env) (setLoading false) s w =
  match fetched_todos (network w (length (requests w))) with
  | Some todos =>
      (Return tt, idle (loaded todos s),
       with_request (GET_user (username env)) w)
  | None =>
      (Return tt, idle (failed "Failed to load tasks. Please try again." s),
       with_console "Error loading tasks:"
         (with_request (GET_user (username env)) w))
  end.
Proof.
  unfold try_finally. rewrite loadTasks_run.
  destruct (fetched_todos _); reflexivity.
Qed.

Ltac after_load :=
  unfold try_finally, busy, input_cleared, setLoading, set_state;
  cbn -[loadTasks];
  match goal with
  | |- context [loadTasks ?env ?s ?w] =>
      let H := fresh "H" in
      pose proof (loadTasks_returns env s w) as H;
      destruct (loadTasks env s w) as [[? ?] ?];
      unfold outcome_of in H; simpl in H; subst; reflexivity
  end.

Lemma initializeUser_run env s w :
  initializeUser env s w =
  let u := username env in
  let w1 := with_request (GET_user u) w in
  let w2 := with_request (POST_user u) w1 in
  match network w (length (requests w)) with
  | Rejected =>
      aborted "Failed to initialize user. Please try again."
              "Error initializing user:" s w1
  | Fulfilled r =>
      if (status r =? 404)%Z then
        match network w (S (length (requests w))) with
        | Rejected =>
            aborted "Failed to initialize user. Please try again."
                    "Error initializing user:" s w2
        | Fulfilled _ =>
            try_finally (loadTasks env) (setLoading false) (busy s) w2
        end
      else
        try_finally (loadTasks env) (setLoading false) (busy s) w1
  end.
Proof.
  cbv zeta.
  unfold initializeUser, setLoading, setError, aborted.
  unfold_js. cbn -[loadTasks Z.eqb].
  destruct (network w (length (requests w))) as [|r];
    cbn -[loadTasks Z.eqb]; [reflexivity|].
  destruct (status r =? 404)%Z; cbn -[loadTasks Z.eqb].
  - rewrite length_app, Nat.add_1_r. cbn -[loadTasks].
    destruct (network w (S (length (requests w))));
      cbn -[loadTasks]; [reflexivity|].
    after_load.
  - after_load.
Qed.

Lemma addTask_run env s w :
  blank (inputTaskValue env) = false ->
  addTask env s w =
  let w1 := with_request
              (POST_todo (username env) (trim (inputTaskValue env)) false) w in
  match network w (length (requests w)) with
  | Rejected =>
      aborted "Failed to add task. Please try again." "Error adding task:" s w1
  | Fulfilled r =>
      if ok r
      then try_finally (loadTasks env) (setLoading false)
                       (input_cleared (busy s)) w1
      else aborted "Failed to add task. Please try again."
                   "Error adding task:" s w1
  end.
Proof.
  intros Hb. cbv zeta. unfold addTask. rewrite is_empty_trim, Hb.
  unfold setLoading, setError, setInputTaskValue, aborted.
  unfold_js. cbn -[loadTasks].
  destruct (network w (length (requests w))) as [|r];
    cbn -[loadTasks]; [reflexivity|].
  destruct (ok r); cbn -[loadTasks]; [|reflexivity].
  after_load.
Qed.

Lemma deleteTask_run env taskId s w :
  deleteTask env taskId s w =
  let w1 := with_request (DELETE_todo taskId) w in
  match network w (length (requests w)) with
  | Rejected =>
      aborted "Failed to delete task. Please try again."
              "Error deleting task:" s w1
  | Fulfilled r =>
      if ok r
      then try_finally (loadTasks env) (setLoading false) (busy s) w1
      else aborted "Failed to delete task. Please try again."
                   "Error deleting task:" s w1
  end.
Proof.
  cbv zeta. unfold deleteTask.
  unfold setLoading, setError, aborted.
  unfold_js. cbn -[loadTasks].
  destruct (network w (length (requests w))) as [|r];
    cbn -[loadTasks]; [reflexivity|].
  destruct (ok r); cbn -[loadTasks]; [|reflexivity].
  after_load.
Qed.

Lemma clearAllTasks_run env s w :
  clearAllTasks env s w =
  match tasks env with
  | JArr l =>
      let w1 := with_requests (delete_requests l) w in
      if have_ids l then
        match all_fulfilled (replies w (length (requests w)) (length l)) with
        | Some _ => try_finally (loadTasks env) (setLoading false) (busy s) w1
        | None =>
            aborted "Failed to clear all tasks. Please try again."
                    "Error clearing all tasks:" s w1
        end
      else
        aborted "Failed to clear all tasks. Please try again."
                "Error clearing all tasks:" s w1
  | _ =>
      aborted "Failed to clear all tasks. Please try again."
              "Error clearing all tasks:" s w
  end.
Proof.
  unfold clearAllTasks, array_map.
  destruct (tasks env) as [| | | | |l|];
    try (unfold setLoading, setError, aborted; unfold_js; reflexivity).
  cbv zeta.
  unfold try_catch_finally, try_finally, try_catch.
  unfold bind at 1. unfold setLoading at 1, set_state at 1.
  unfold bind at 1. unfold setError at 1, set_state at 1.
  unfold bind at 1. rewrite mapM_delete.
  destruct (have_ids l).
  - unfold bind at 1. unfold Promise_all.
    cbn [requests].
    destruct (all_fulfilled _).
    + unfold ret at 1. after_load.
    + reflexivity.
  - reflexivity.
Qed.

End MonolithFacts.

Module SplitFacts.
Import Split.

Lemma TodoApp_loadTasks_run u s w :
  loadTasks u s w =
  match fetched_todos (network w (length (requests w))) with
  | Some todos => (Return tt, loaded todos s, with_request (GET_user u) w)
  | None =>
      (Return tt, failed "Failed to load tasks. Please try again." s,
       with_console "Error loading tasks:" (with_request (GET_user u) w))
  end.
Proof.
  unfold loadTasks, todoAPI.getUserTasks, setError, setTasks,
    setTotalTasksCreated, fetched_todos.
  unfold_js. simpl.
  destruct (network w (length (requests w))) as [|r]; simpl; [reflexivity|].
  destruct (ok r); simpl; [|reflexivity].
  destruct (body r) as [v|]; simpl; [|reflexivity].
  destruct (get_prop v p_todos) as [t|]; simpl; reflexivity.
Qed.

Lemma TodoApp_loadTasks_returns u s w : outcome_of (loadTasks u s w) = Return tt.
Proof. rewrite TodoApp_loadTasks_run. destruct (fetched_todos _); reflexivity. Qed.

Lemma TodoApp_reload_run u s w :
  try_finally (loadTasks u) (setLoading false) s w =
  match fetched_todos (network w (length (requests w))) with
  | Some todos =>
      (Return tt, idle (loaded todos s), with_request (GET_user u) w)
  | None =>
      (Return tt, idle (failed "Failed to load tasks. Please try again." s),
       with_console "Error loading tasks:" (with_request (GET_user u) w))
  end.
Proof.
  unfold try_finally. rewrite TodoApp_loadTasks_run.
  destruct (fetched_todos _); reflexivity.
Qed.

Ltac after_TodoApp_load :=
  unfold try_finally, busy, setLoading, set_state;
  cbn -[loadTasks];
  match goal with
  | |- context [loadTasks ?u ?s ?w] =>
      let H := fresh "H" in
      pose proof (TodoApp_loadTasks_returns u s w) as H;
      destruct (loadTasks u s w) as [[? ?] ?];
      unfold outcome_of in H; simpl in H; subst; reflexivity
  end.

Lemma TodoApp_initializeUser_run u s w :
  initializeUser u s w =
  let w1 := with_request (GET_user u) w in
  let w2 := with_request (POST_user u) w1 in
  match network w (length (requests w)) with
  | Rejected =>
      aborted "Failed to initialize user. Please try again."
              "Error initializing user:" s w1
  | Fulfilled r =>
      if (status r =? 404)%Z then
        match network w (S (length (requests w))) with
        | Rejected =>
            aborted "Failed to initialize user. Please try again."
                    "Error initializing user:" s w2
        | Fulfilled _ =>
            try_finally (loadTasks u) (setLoading false) (busy s) w2
        end
      else
        try_finally (loadTasks u) (setLoading false) (busy s) w1
  end.
Proof.
  cbv zeta.
  unfold initializeUser, todoAPI.initializeUser, setLoading, setError, aborted.
  unfold_js. cbn -[loadTasks Z.eqb].
  destruct (network w (length (requests w))) as [|r];
    cbn -[loadTasks Z.eqb]; [reflexivity|].
  destruct (status r =? 404)%Z; cbn -[loadTasks Z.eqb].
  - rewrite length_app, Nat.add_1_r. cbn -[loadTasks].
    destruct (network w (S (length (requests w))));
      cbn -[loadTasks]; [reflexivity|].
    after_TodoApp_load.
  - after_TodoApp_load.
Qed.

(** Unlike [addTask] of the single component, [todoAPI.addTask] parses
    the body of the answer, and fails when it is not JSON. *)
Lemma handleAddTask_run u taskText s w :
  handleAddTask u taskText s w =
  let w1 := with_request (POST_todo u taskText false) w in
  match network w (length (requests w)) with
  | Rejected =>
      aborted "Failed to add task. Please try again." "Error adding task:" s w1
  | Fulfilled r =>
      if ok r then
        match body r with
        | Some _ => try_finally (loadTasks u) (setLoading false) (busy s) w1
        | None =>
            aborted "Failed to add task. Please try again."
                    "Error adding task:" s w1
        end
      else aborted "Failed to add task. Please try again."
                   "Error adding task:" s w1
  end.
Proof.
  cbv zeta. unfold handleAddTask, todoAPI.addTask.
  unfold setLoading, setError, aborted.
  unfold_js. cbn -[loadTasks].
  destruct (network w (length (requests w))) as [|r];
    cbn -[loadTasks]; [reflexivity|].
  destruct (ok r); cbn -[loadTasks]; [|reflexivity].
  destruct (body r); cbn -[loadTasks]; [|reflexivity].
  after_TodoApp_load.
Qed.

Lemma handleDeleteTask_run u taskId s w :
  handleDeleteTask u taskId s w =
  let w1 := with_request (DELETE_todo taskId) w in
  match network w (length (requests w)) with
  | Rejected =>
      aborted "Failed to delete task. Please try again."
              "Error deleting task:" s w1
  | Fulfilled r =>
      if ok r
      then try_finally (loadTasks u) (setLoading false) (busy s) w1
      else aborted "Failed to delete task. Please try again."
                   "Error deleting task:" s w1
  end.
Proof.
  cbv zeta. unfold handleDeleteTask, todoAPI.deleteTask.
  unfold setLoading, setError, aborted.
  unfold_js. cbn -[loadTasks].
  destruct (network w (length (requests w))) as [|r];
    cbn -[loadTasks]; [reflexivity|].
  destruct (ok r); cbn -[loadTasks]; [|reflexivity].
  after_TodoApp_load.
Qed.

Lemma handleClearAll_run u env s w :
  handleClearAll u env s w =
  match tasks env with
  | JArr l =>
      let w1 := with_requests (delete_requests l) w in
      if have_ids l then
        match all_fulfilled (replies w (length (requests w)) (length l)) with
        | Some _ => try_finally (loadTasks u) (setLoading false) (busy s) w1
        | None =>
            aborted "Failed to clear all tasks. Please try again."
                    "Error clearing all tasks:" s w1
        end
      else
        aborted "Failed to clear all tasks. Please try again."
                "Error clearing all tasks:" s w1
  | _ =>
      aborted "Failed to clear all tasks. Please try again."
              "Error clearing all tasks:" s w
  end.
Proof.
  unfold handleClearAll, todoAPI.clearAllTasks, array_map.
  destruct (tasks env) as [| | | | |l|];
    try (unfold setLoading, setError, aborted; unfold_js; reflexivity).
  cbv zeta.
  unfold try_catch_finally, try_finally, try_catch.
  unfold bind at 1. unfold setLoading at 1, set_state at 1.
  unfold bind at 1. unfold setError at 1, set_state at 1.
  unfold bind at 1. unfold bind at 1. rewrite mapM_delete.
  destruct (have_ids l).
  - unfold bind at 1. unfold Promise_all.
    cbn [requests].
    destruct (all_fulfilled _).
    + unfold ret at 1. after_TodoApp_load.
    + reflexivity.
  - reflexivity.
Qed.

(** The handlers of [TodoApp] catch everything: dropping the promise of
    [handleAddTask] in [TaskInput] loses no error. *)
Lemma handleAddTask_returns u taskText s w :
  outcome_of (handleAddTask u taskText s w) = Return tt.
Proof.
  rewrite handleAddTask_run. cbv zeta. rewrite TodoApp_reload_run.
  destruct (network w _) as [|r]; [reflexivity|].
  destruct (ok r); [|reflexivity].
  destruct (body r); [|reflexivity].
  destruct (fetched_todos _); reflexivity.
Qed.

End SplitFacts.

(** The POST is among the requests that follow the first GET exactly when
    that GET returned status 404. *)
Lemma POST_iff_404 u first second :
  In (POST_user u) (requests_after_GET u first second) <->
  exists resp, first = Fulfilled resp /\ status resp = 404%Z.
Proof.
  unfold requests_after_GET. destruct first as [|r].
  - split; [intros []|]. intros (resp & Hr & _). discriminate.
  - destruct (status r =? 404)%Z eqn:H404.
    + apply Z.eqb_eq in H404. split; [eauto|]. intros _. left. reflexivity.
    + apply Z.eqb_neq in H404. split.
      * intros [Hin|[]]. discriminate.
      * intros (resp & Hr & Hs). congruence.
Qed.

Ltac log_eq :=
  try destruct (fetched_todos _);
  unfold world_after; cbn; rewrite <- ?app_assoc; reflexivity.

Lemma initializeUser_requests env s w :
  requests (world_after (Monolith.initializeUser env s w)) =
  requests w ++
  GET_user (Monolith.username env) ::
  requests_after_GET (Monolith.username env)
    (network w (length (requests w))) (network w (S (length (requests w)))).
Proof.
  rewrite MonolithFacts.initializeUser_run. cbv zeta.
  rewrite !MonolithFacts.reload_run. unfold requests_after_GET.
  destruct (network w (length (requests w))) as [|r]; [log_eq|].
  destruct (status r =? 404)%Z; [|log_eq].
  destruct (network w (S (length (requests w)))); log_eq.
Qed.

Lemma TodoApp_initializeUser_requests u s w :
  requests (world_after (Split.initializeUser u s w)) =
  requests w ++
  GET_user u ::
  requests_after_GET u
    (network w (length (requests w))) (network w (S (length (requests w)))).
Proof.
  rewrite SplitFacts.TodoApp_initializeUser_run. cbv zeta.
  rewrite !SplitFacts.TodoApp_reload_run. unfold requests_after_GET.
  destruct (network w (length (requests w))) as [|r]; [log_eq|].
  destruct (status r =? 404)%Z; [|log_eq].
  destruct (network w (S (length (requests w)))); log_eq.
Qed.

Ltac failed_run := unfold state_after; cbn; discriminate.

(** A reload that ends with no error shown has re-fetched the list. *)
Lemma refetched_after_reload env s w sent :
  let r := try_finally (Monolith.loadTasks env) (Monolith.setLoading false) s
                       (with_requests sent w) in
  Monolith.error (state_after r) = "" ->
  refetched (Monolith.username env) sent w (world_after r)
            (Monolith.tasks (state_after r))
            (Monolith.totalTasksCreated (state_after r)).
Proof.
  cbv zeta. rewrite MonolithFacts.reload_run.
  cbn [network requests with_requests].
  destruct (fetched_todos _) as [todos|] eqn:Hf; [|failed_run].
  intros _. unfold refetched, world_after, state_after. cbn.
  split; [rewrite <- app_assoc; reflexivity|].
  exists todos. auto.
Qed.

Lemma TodoApp_refetched_after_reload u s w sent :
  let r := try_finally (Split.loadTasks u) (Split.setLoading false) s
                       (with_requests sent w) in
  Split.error (state_after r) = "" ->
  refetched u sent w (world_after r)
            (Split.tasks (state_after r))
            (Split.totalTasksCreated (state_after r)).
Proof.
  cbv zeta. rewrite SplitFacts.TodoApp_reload_run.
  cbn [network requests with_requests].
  destruct (fetched_todos _) as [todos|] eqn:Hf; [|failed_run].
  intros _. unfold refetched, world_after, state_after. cbn.
  split; [rewrite <- app_assoc; reflexivity|].
  exists todos. auto.
Qed.

(** A DELETE rejected by the network aborts the whole operation: the
    DELETE requests have been issued, the list is not reloaded and the
    error is shown. *)
Lemma clearAllTasks_aborts_on_rejected_delete :
  forall (w : World) (l : list jsval) (i : nat),
    have_ids l = true ->
    (i < length l)%nat ->
    network w (length (requests w) + i) = Rejected ->
    (forall env s,
        Monolith.tasks env = JArr l ->
        Monolith.clearAllTasks env s w
        = Monolith.aborted "Failed to clear all tasks. Please try again."
                           "Error clearing all tasks:" s
                           (with_requests (delete_requests l) w)) /\
    (forall u env s,
        Split.tasks env = JArr l ->
        Split.handleClearAll u env s w
        = Split.aborted "Failed to clear all tasks. Please try again."
                        "Error clearing all tasks:" s
                        (with_requests (delete_requests l) w)).
Proof.
  intros w l i Hids Hi Hrej.
  pose proof (all_fulfilled_rejected _
                (rejected_among_replies w _ _ i Hi Hrej)) as Hnone.
  split.
  - intros env s Ht.
    rewrite MonolithFacts.clearAllTasks_run, Ht. cbv zeta.
    rewrite Hids, Hnone. reflexivity.
  - intros u env s Ht.
    rewrite SplitFacts.handleClearAll_run, Ht. cbv zeta.
    rewrite Hids, Hnone. reflexivity.
Qed.

(** * The claims *)

(** ** Loading the task list *)

(** C5: for every successful server response, [loadTasks] shows the
    response's [todos] array, or the empty list when [todos] is absent
    or null, and sets both counters ("Total Tasks Created" and "Current
    Tasks") from that array.  A successful response is an ok response
    whose JSON body [userData] is a value with properties; in general
    the list shown is [userData.todos || []]. *)
Theorem C5_loadTasks_sets_list_and_counters :
  forall (w : World) (resp : Response) (userData todos : jsval),
    network w (length (requests w)) = Fulfilled resp ->
    ok resp = true ->
    body resp = Some userData ->
    get_prop userData p_todos = Some todos ->
    (forall env s,
        let s' := state_after (Monolith.loadTasks env s w) in
        Monolith.error s' = "" /\
        Monolith.tasks s' = js_or todos (JArr []) /\
        (todos = JUndefined \/ todos = JNull ->
         Monolith.tasks s' = JArr [] /\
         Monolith.totalTasksCreated s' = JNum 0 /\
         Monolith.currentTasks s' = Some (JNum 0)) /\
        (forall l, todos = JArr l ->
         Monolith.tasks s' = JArr l /\
         Monolith.totalTasksCreated s' = JNum (Z.of_nat (length l)) /\
         Monolith.currentTasks s' = Some (JNum (Z.of_nat (length l))))) /\
    (forall u s,
        let s' := state_after (Split.loadTasks u s w) in
        Split.error s' = "" /\
        Split.tasks s' = js_or todos (JArr []) /\
        (todos = JUndefined \/ todos = JNull ->
         Split.tasks s' = JArr [] /\
         Split.totalTasksCreated s' = JNum 0 /\
         Split.currentTasks s' = Some (JNum 0)) /\
        (forall l, todos = JArr l ->
         Split.tasks s' = JArr l /\
         Split.totalTasksCreated s' = JNum (Z.of_nat (length l)) /\
         Split.currentTasks s' = Some (JNum (Z.of_nat (length l))))).
Proof.
  intros w resp userData todos Hnet Hok Hbody Htodos.
  assert (Hf : fetched_todos (network w (length (requests w))) = Some todos).
  { rewrite Hnet, (fetched_todos_ok _ _ Hok Hbody). exact Htodos. }
  split.
  - intros env s s'. subst s'.
    rewrite MonolithFacts.loadTasks_run, Hf. unfold state_after.
    cbn [fst snd].
    split; [reflexivity|]. split; [reflexivity|]. split.
    + intros [->| ->]; repeat split; reflexivity.
    + intros l ->. unfold Monolith.currentTasks, Monolith.loaded.
      cbn [Monolith.tasks Monolith.totalTasksCreated].
      rewrite length_or_zero, js_or_array. auto.
  - intros u s s'. subst s'.
    rewrite SplitFacts.TodoApp_loadTasks_run, Hf. unfold state_after.
    cbn [fst snd].
    split; [reflexivity|]. split; [reflexivity|]. split.
    + intros [->| ->]; repeat split; reflexivity.
    + intros l ->. unfold Split.currentTasks, Split.loaded.
      cbn [Split.tasks Split.totalTasksCreated].
      rewrite length_or_zero, js_or_array. auto.
Qed.

(** C5 at a response carrying one task and at one without [todos]. *)
Lemma C5_loadTasks_sets_list_and_counters_witness :
  let full := mkResponse 200 (Some (sample_user "bob" [sample_task 7 "milk"])) in
  let bare := mkResponse 200 (Some (JObj [("name", JStr "bob")])) in
  let before := bob_page [sample_task 8 "eggs"] "" in
  ok full = true /\
  ok bare = true /\
  Monolith.tasks (state_after (Monolith.loadTasks before before
                                                  (scripted [Fulfilled full])))
  = JArr [sample_task 7 "milk"] /\
  Split.totalTasksCreated
    (state_after (Split.loadTasks "bob" (bob_app []) (scripted [Fulfilled full])))
  = JNum 1 /\
  Monolith.tasks (state_after (Monolith.loadTasks before before
                                                  (scripted [Fulfilled bare])))
  = JArr [] /\
  Split.totalTasksCreated
    (state_after (Split.loadTasks "bob" (bob_app [sample_task 8 "eggs"])
                                  (scripted [Fulfilled bare])))
  = JNum 0.
Proof.
  intros full bare before.
  pose proof (C5_loadTasks_sets_list_and_counters (scripted [Fulfilled full])
                full (sample_user "bob" [sample_task 7 "milk"])
                (JArr [sample_task 7 "milk"])
                eq_refl eq_refl eq_refl eq_refl) as [HM HS].
  pose proof (C5_loadTasks_sets_list_and_counters (scripted [Fulfilled bare])
                bare (JObj [("name", JStr "bob")]) JUndefined
                eq_refl eq_refl eq_refl eq_refl) as [HM' HS'].
  destruct (HM before before) as (_ & _ & _ & H).
  destruct (H [sample_task 7 "milk"] eq_refl) as (H1 & _).
  destruct (HS "bob" (bob_app [])) as (_ & _ & _ & H').
  destruct (H' [sample_task 7 "milk"] eq_refl) as (_ & H2 & _).
  destruct (HM' before before) as (_ & _ & Habs & _).
  destruct (Habs (or_introl eq_refl)) as (H3 & _).
  destruct (HS' "bob" (bob_app [sample_task 8 "eggs"])) as (_ & _ & Habs' & _).
  destruct (Habs' (or_introl eq_refl)) as (_ & H4 & _).
  split; [reflexivity|]. split; [reflexivity|].
  split; [exact H1|]. split; [exact H2|]. split; [exact H3|exact H4].
Defined.

(** C9: after every successful [loadTasks] the "Total Tasks Created"
    counter is the length of the fetched [todos] array, whatever it was
    before: it is not cumulative, and it goes down when the fetched array
    is shorter than the previous count. *)
Theorem C9_total_is_length_of_fetched_todos :
  forall (w : World) (resp : Response) (userData : jsval) (l : list jsval),
    network w (length (requests w)) = Fulfilled resp ->
    ok resp = true ->
    body resp = Some userData ->
    get_prop userData p_todos = Some (JArr l) ->
    (forall env s,
        let s' := state_after (Monolith.loadTasks env s w) in
        Monolith.totalTasksCreated s' = JNum (Z.of_nat (length l)) /\
        (forall n, Monolith.totalTasksCreated s = JNum n ->
                   (Z.of_nat (length l) < n)%Z ->
                   exists n', Monolith.totalTasksCreated s' = JNum n' /\ (n' < n)%Z)) /\
    (forall u s,
        let s' := state_after (Split.loadTasks u s w) in
        Split.totalTasksCreated s' = JNum (Z.of_nat (length l)) /\
        (forall n, Split.totalTasksCreated s = JNum n ->
                   (Z.of_nat (length l) < n)%Z ->
                   exists n', Split.totalTasksCreated s' = JNum n' /\ (n' < n)%Z)).
Proof.
  intros w resp userData l Hnet Hok Hbody Htodos.
  assert (Hf : fetched_todos (network w (length (requests w))) = Some (JArr l)).
  { rewrite Hnet, (fetched_todos_ok _ _ Hok Hbody). exact Htodos. }
  split.
  - intros env s s'. subst s'.
    rewrite MonolithFacts.loadTasks_run, Hf. unfold state_after, Monolith.loaded.
    cbn [fst snd Monolith.totalTasksCreated]. rewrite length_or_zero.
    split; [reflexivity|]. intros n _ Hlt. eauto.
  - intros u s s'. subst s'.
    rewrite SplitFacts.TodoApp_loadTasks_run, Hf. unfold state_after, Split.loaded.
    cbn [fst snd Split.totalTasksCreated]. rewrite length_or_zero.
    split; [reflexivity|]. intros n _ Hlt. eauto.
Qed.

(** C9 at a page counting two tasks that fetches one. *)
Lemma C9_total_is_length_of_fetched_todos_witness :
  let w := scripted
             [Fulfilled (mkResponse 200
                (Some (sample_user "bob" [sample_task 7 "milk"])))] in
  let before := bob_page [sample_task 7 "milk"; sample_task 8 "eggs"] "" in
  let before' := bob_app [sample_task 7 "milk"; sample_task 8 "eggs"] in
  Monolith.totalTasksCreated before = JNum 2 /\
  Monolith.totalTasksCreated (state_after (Monolith.loadTasks before before w))
  = JNum 1 /\
  (exists n', Monolith.totalTasksCreated
                (state_after (Monolith.loadTasks before before w)) = JNum n' /\
              (n' < 2)%Z) /\
  Split.totalTasksCreated (state_after (Split.loadTasks "bob" before' w))
  = JNum 1 /\
  (exists n', Split.totalTasksCreated
                (state_after (Split.loadTasks "bob" before' w)) = JNum n' /\
              (n' < 2)%Z).
Proof.
  intros w before before'.
  pose proof (C9_total_is_length_of_fetched_todos w
                (mkResponse 200 (Some (sample_user "bob" [sample_task 7 "milk"])))
                (sample_user "bob" [sample_task 7 "milk"])
                [sample_task 7 "milk"]
                eq_refl eq_refl eq_refl eq_refl) as [HM HS].
  destruct (HM before before) as [H1 H2].
  destruct (HS "bob" before') as [H3 H4].
  split; [reflexivity|]. split; [exact H1|].
  split; [apply (H2 2%Z eq_refl); reflexivity|].
  split; [exact H3|].
  apply (H4 2%Z eq_refl); reflexivity.
Defined.

(** C10: when [loadTasks] fails, by a network error or a response that
    is not ok, the list shown and both counters keep their values; of the
    component state only the error message changes. *)
Theorem C10_failed_load_keeps_list_and_counters :
  forall (w : World),
    (network w (length (requests w)) = Rejected \/
     exists resp, network w (length (requests w)) = Fulfilled resp /\
                  ok resp = false) ->
    (forall env s,
        let s' := state_after (Monolith.loadTasks env s w) in
        s' = Monolith.failed "Failed to load tasks. Please try again." s /\
        Monolith.tasks s' = Monolith.tasks s /\
        Monolith.totalTasksCreated s' = Monolith.totalTasksCreated s /\
        Monolith.currentTasks s' = Monolith.currentTasks s /\
        Monolith.loading s' = Monolith.loading s /\
        Monolith.inputTaskValue s' = Monolith.inputTaskValue s /\
        Monolith.error s' = "Failed to load tasks. Please try again.") /\
    (forall u s,
        let s' := state_after (Split.loadTasks u s w) in
        s' = Split.failed "Failed to load tasks. Please try again." s /\
        Split.tasks s' = Split.tasks s /\
        Split.totalTasksCreated s' = Split.totalTasksCreated s /\
        Split.currentTasks s' = Split.currentTasks s /\
        Split.loading s' = Split.loading s /\
        Split.error s' = "Failed to load tasks. Please try again.").
Proof.
  intros w Hfail. apply fetched_todos_failed in Hfail.
  split.
  - intros env s s'. subst s'.
    rewrite MonolithFacts.loadTasks_run, Hfail. repeat split; reflexivity.
  - intros u s s'. subst s'.
    rewrite SplitFacts.TodoApp_loadTasks_run, Hfail. repeat split; reflexivity.
Qed.

(** C10 at an answer with status 500 and at an unreachable server. *)
Lemma C10_failed_load_keeps_list_and_counters_witness :
  let w := scripted [Fulfilled (mkResponse 500 None)] in
  let before := bob_page [sample_task 7 "milk"] "" in
  ok (mkResponse 500 None) = false /\
  Monolith.tasks (state_after (Monolith.loadTasks before before w))
  = JArr [sample_task 7 "milk"] /\
  Split.tasks (state_after (Split.loadTasks "bob" (bob_app []) (scripted [])))
  = JArr [].
Proof.
  intros w before. split; [reflexivity|]. split.
  - destruct (C10_failed_load_keeps_list_and_counters w) as [HM _].
    + right. exists (mkResponse 500 None). split; reflexivity.
    + destruct (HM before before) as (_ & H & _). exact H.
  - destruct (C10_failed_load_keeps_list_and_counters (scripted [])) as [_ HS].
    + left. reflexivity.
    + destruct (HS "bob" (bob_app [])) as (_ & H & _). exact H.
Defined.

(** ** The guards on the input box and on the Clear All button *)

(** C6: with an empty or whitespace-only input, adding a task does
    nothing: the run ends in the very state and world it started from,
    so no request is issued and the list, the counters, the input value,
    the loading flag and the error message are unchanged.  This holds
    for the handler itself, for the Add button and for the Enter key, in
    both renditions. *)
Theorem C6_blank_input_add_is_noop :
  forall (input : string),
    blank input = true ->
    (forall env s w,
        Monolith.inputTaskValue env = input ->
        Monolith.addTask env s w = (Return tt, s, w)) /\
    (forall s w,
        Monolith.inputTaskValue s = input ->
        Monolith.click_Add s w = (Return tt, s, w) /\
        Monolith.handleKeyDown s "Enter" s w = (Return tt, s, w)) /\
    (forall u app w,
        Split.submit_task u (app, input) w = (Return tt, (app, input), w) /\
        click (Some (Split.TaskInput_AddButton
                       (Split.handleAddTask u) (Split.loading app) input))
              (app, input) w
        = (Return tt, (app, input), w) /\
        Split.TaskInput_handleKeyDown (Split.handleAddTask u) input "Enter"
                                      (app, input) w
        = (Return tt, (app, input), w)).
Proof.
  intros input Hb.
  assert (HM : forall env s w, Monolith.inputTaskValue env = input ->
                               Monolith.addTask env s w = (Return tt, s, w)).
  { intros env s w Hin. unfold Monolith.addTask.
    rewrite is_empty_trim, Hin, Hb. reflexivity. }
  assert (HS : forall (P : Type) (onAddTask : string -> M P unit) s w,
             Split.TaskInput_handleSubmit onAddTask input s w = (Return tt, s, w)).
  { intros P onAddTask s w. unfold Split.TaskInput_handleSubmit.
    rewrite is_empty_trim, Hb. reflexivity. }
  split; [exact HM|]. split.
  - intros s w Hin. split.
    + unfold Monolith.click_Add, Monolith.AddButton, click.
      cbn [btn_disabled btn_onClick].
      rewrite is_empty_trim, Hin, Hb, orb_true_r. reflexivity.
    + unfold Monolith.handleKeyDown. cbn [String.eqb Ascii.eqb Bool.eqb].
      unfold floating. rewrite (HM s s w Hin). reflexivity.
  - intros u app w. split; [|split].
    + unfold Split.submit_task. cbn [snd]. apply HS.
    + unfold Split.TaskInput_AddButton, click. cbn [btn_disabled btn_onClick].
      rewrite is_empty_trim, Hb, orb_true_r. reflexivity.
    + unfold Split.TaskInput_handleKeyDown. cbn [String.eqb Ascii.eqb Bool.eqb].
      apply HS.
Qed.

(** C6 at an input made of a space and a tab. *)
Lemma C6_blank_input_add_is_noop_witness :
  let input := String (ascii_of_nat 32) (String (ascii_of_nat 9) "") in
  let page := bob_page [sample_task 7 "milk"] input in
  blank input = true /\
  Monolith.addTask page page (scripted []) = (Return tt, page, scripted []) /\
  Monolith.click_Add page (scripted []) = (Return tt, page, scripted []) /\
  Monolith.handleKeyDown page "Enter" page (scripted [])
  = (Return tt, page, scripted []) /\
  Split.submit_task "bob" (bob_app [], input) (scripted [])
  = (Return tt, (bob_app [], input), scripted []).
Proof.
  intros input page.
  destruct (C6_blank_input_add_is_noop input eq_refl) as (HM & HK & HS).
  split; [reflexivity|].
  split; [apply HM; reflexivity|].
  split; [apply (HK page (scripted []) eq_refl)|].
  split; [apply (HK page (scripted []) eq_refl)|].
  apply HS.
Defined.

(** C7: with an empty task list the Clear All button is not rendered, so
    an attempt to clear all tasks does nothing: no request at all is
    issued and the state (list and counters included) is unchanged.
    Were the handler invoked all the same, it would issue no DELETE
    request, only the GET of the reload. *)
Theorem C7_clear_all_on_empty_list_is_noop :
  forall (w : World),
    (forall s,
        Monolith.tasks s = JArr [] ->
        Monolith.click_ClearAll s w = Some (Return tt, s, w)) /\
    (forall u s,
        Split.tasks s = JArr [] ->
        Split.click_ClearAll u s w = Some (Return tt, s, w)) /\
    (forall env s,
        Monolith.tasks env = JArr [] ->
        requests (world_after (Monolith.clearAllTasks env s w))
        = requests w ++ [GET_user (Monolith.username env)]) /\
    (forall u env s,
        Split.tasks env = JArr [] ->
        requests (world_after (Split.handleClearAll u env s w))
        = requests w ++ [GET_user u]).
Proof.
  intros w. split; [|split; [|split]].
  - intros s Ht. unfold Monolith.click_ClearAll, Monolith.ClearAllButton.
    rewrite Ht. reflexivity.
  - intros u s Ht. unfold Split.click_ClearAll, Split.TodoApp_ClearAllButton.
    rewrite Ht. reflexivity.
  - intros env s Ht. rewrite MonolithFacts.clearAllTasks_run, Ht.
    cbn [have_ids delete_requests length replies seq map all_fulfilled].
    rewrite MonolithFacts.reload_run, with_requests_nil.
    destruct (fetched_todos _); unfold world_after; cbn; reflexivity.
  - intros u env s Ht. rewrite SplitFacts.handleClearAll_run, Ht.
    cbn [have_ids delete_requests length replies seq map all_fulfilled].
    rewrite SplitFacts.TodoApp_reload_run, with_requests_nil.
    destruct (fetched_todos _); unfold world_after; cbn; reflexivity.
Qed.

(** C7 at the page of a user without tasks. *)
Lemma C7_clear_all_on_empty_list_is_noop_witness :
  Monolith.tasks (bob_page [] "") = JArr [] /\
  Split.tasks (bob_app []) = JArr [] /\
  Monolith.click_ClearAll (bob_page [] "") (scripted [])
  = Some (Return tt, bob_page [] "", scripted []) /\
  Split.click_ClearAll "bob" (bob_app []) (scripted [])
  = Some (Return tt, bob_app [], scripted []) /\
  requests (world_after (Monolith.clearAllTasks (bob_page [] "") (bob_page [] "")
                                                (scripted [])))
  = [GET_user "bob"] /\
  requests (world_after (Split.handleClearAll "bob" (bob_app []) (bob_app [])
                                              (scripted [])))
  = [GET_user "bob"].
Proof.
  destruct (C7_clear_all_on_empty_list_is_noop (scripted []))
    as (HM & HS & HM' & HS').
  split; [reflexivity|]. split; [reflexivity|].
  split; [apply HM; reflexivity|].
  split; [apply HS; reflexivity|].
  split; [apply (HM' (bob_page [] "") (bob_page [] "") eq_refl)|].
  apply (HS' "bob" (bob_app []) (bob_app []) eq_refl).
Defined.

(** ** The username gate *)

(** C2, as stated, fails on the single-component rendition: submitting
    the username bob leaves the gate for the task view, but nothing is
    written to the session storage. *)
Lemma C2_monolith_submit_persists_nothing :
  let page := Monolith.mkState (JArr []) "" (JNum 0) false "" "bob" false in
  let r := Monolith.handleUsernameSubmit page page (scripted []) in
  trim "bob" <> "" /\
  Monolith.screen page = Monolith.UsernameFormScreen /\
  Monolith.screen (state_after r) = Monolith.TodoScreen /\
  ~ (exists key, sessionStorage (world_after r) !! key = Some "bob").
Proof.
  cbv zeta. split; [discriminate|]. split; [reflexivity|].
  split; [reflexivity|].
  intros [key Hkey].
  change (sessionStorage (scripted []) !! key = Some "bob") in Hkey.
  unfold scripted in Hkey. cbn [sessionStorage] in Hkey.
  assert (Hnone : (∅ : gmap string string) !! key = None) by apply lookup_empty.
  congruence.
Qed.

(** C2, amended: for every username that is non-empty after trimming,
    submitting the username form leaves the gate for the task view.  The
    componentised rendition also persists the trimmed username in the
    session storage under the key todoUsername, so that a remount
    restores the task view; the single-component rendition keeps the
    username in component state only and leaves the browser untouched. *)
Theorem C2_submit_username_enters_task_view :
  forall (input : string),
    trim input <> "" ->
    (forall s w,
        Monolith.username s = input ->
        let r := Monolith.handleUsernameSubmit s s w in
        outcome_of r = Return tt /\
        Monolith.screen (state_after r) = Monolith.TodoScreen /\
        Monolith.username (state_after r) = input /\
        world_after r = w) /\
    (forall h w,
        let r := Split.submit_username input h w in
        outcome_of r = Return tt /\
        Split.screen (state_after r) = Split.TodoAppScreen (trim input) /\
        sessionStorage (world_after r) !! "todoUsername" = Some (trim input) /\
        Split.screen
          (state_after (Split.Home_mount Split.Home_initial (world_after r)))
        = Split.TodoAppScreen (trim input) /\
        requests (world_after r) = requests w).
Proof.
  intros input Hne. pose proof (is_empty_false _ Hne) as He. split.
  - intros s w Hu r. subst r. unfold Monolith.handleUsernameSubmit.
    rewrite Hu, He. cbn. auto.
  - intros h w r. subst r.
    unfold Split.submit_username, Split.UsernameForm_handleSubmit.
    rewrite He. cbn [negb].
    unfold Split.handleUsernameSubmit, Split.setUsername, Split.setIsUserSet.
    unfold sessionStorage_setItem, bind, set_state, outcome_of, state_after,
      world_after.
    cbn [fst snd with_storage sessionStorage requests Split.username
         Split.isUserSet].
    assert (Hin : <["todoUsername" := trim input]> (sessionStorage w)
                  !! "todoUsername" = Some (trim input))
      by apply lookup_insert_eq.
    repeat split.
    + exact Hin.
    + unfold Split.Home_mount, sessionStorage_getItem, bind.
      cbn [sessionStorage with_storage]. rewrite Hin, He. reflexivity.
Qed.

(** C2, amended, at the input bob preceded by a space. *)
Lemma C2_submit_username_enters_task_view_witness :
  let input := String (ascii_of_nat 32) "bob" in
  let gate := Monolith.mkState (JArr []) "" (JNum 0) false "" input false in
  trim input <> "" /\
  Monolith.screen (state_after (Monolith.handleUsernameSubmit gate gate
                                                              (scripted [])))
  = Monolith.TodoScreen /\
  world_after (Monolith.handleUsernameSubmit gate gate (scripted []))
  = scripted [] /\
  Split.screen (state_after (Split.submit_username input Split.Home_initial
                                                   (scripted [])))
  = Split.TodoAppScreen "bob" /\
  sessionStorage (world_after (Split.submit_username input Split.Home_initial
                                                     (scripted [])))
  !! "todoUsername" = Some "bob".
Proof.
  intros input gate.
  assert (Hne : trim input <> "") by discriminate.
  destruct (C2_submit_username_enters_task_view input Hne) as [HM HS].
  destruct (HM gate (scripted []) eq_refl) as (_ & M1 & _ & M2).
  destruct (HS Split.Home_initial (scripted [])) as (_ & H1 & H2 & _).
  split; [exact Hne|].
  split; [exact M1|]. split; [exact M2|].
  split; [exact H1 | exact H2].
Defined.

(** C8: logout removes the persisted username from the session storage
    (the other keys stay), empties the username held in memory and
    brings the username form back; the form is still shown after a
    remount, as nothing is left to restore. *)
Theorem C8_logout_clears_username_and_returns_to_gate :
  forall (h : Split.Home) (w : World),
    let r := Split.handleLogout h w in
    outcome_of r = Return tt /\
    sessionStorage (world_after r) !! "todoUsername" = None /\
    sessionStorage (world_after r) = delete "todoUsername" (sessionStorage w) /\
    Split.username (state_after r) = "" /\
    Split.isUserSet (state_after r) = false /\
    Split.screen (state_after r) = Split.UsernameFormScreen /\
    Split.screen (state_after (Split.Home_mount (state_after r) (world_after r)))
    = Split.UsernameFormScreen /\
    requests (world_after r) = requests w.
Proof.
  intros h w r. subst r.
  unfold Split.handleLogout, Split.setUsername, Split.setIsUserSet.
  unfold sessionStorage_removeItem, bind, set_state, outcome_of, state_after,
    world_after.
  cbn [fst snd with_storage sessionStorage requests Split.username
       Split.isUserSet].
  repeat split.
  - apply lookup_delete_eq.
  - unfold Split.Home_mount, sessionStorage_getItem, bind.
    cbn [sessionStorage with_storage].
    assert (Hgone : delete "todoUsername" (sessionStorage w) !! "todoUsername"
                    = None) by apply lookup_delete_eq.
    rewrite Hgone. reflexivity.
Qed.

(** ** Initialising the user *)

(** C4, as stated, fails when the POST is rejected: the GET returned
    404, the POST was issued, and the task list is not loaded (no second
    GET is issued, the list is unchanged and the initialisation error is
    shown), although the server would have answered. *)
Lemma C4_rejected_post_skips_load :
  let w := scripted [Fulfilled (mkResponse 404 None);
                     Rejected;
                     Fulfilled (mkResponse 200
                       (Some (sample_user "bob" [sample_task 7 "milk"])))] in
  let m := Monolith.initializeUser (bob_page [] "") (bob_page [] "") w in
  let c := Split.initializeUser "bob" (bob_app []) w in
  requests (world_after m) = [GET_user "bob"; POST_user "bob"] /\
  Monolith.tasks (state_after m) = JArr [] /\
  Monolith.error (state_after m) = "Failed to initialize user. Please try again." /\
  requests (world_after c) = [GET_user "bob"; POST_user "bob"] /\
  Split.tasks (state_after c) = JArr [] /\
  Split.error (state_after c) = "Failed to initialize user. Please try again.".
Proof. cbv zeta. repeat split; reflexivity. Qed.

(** C4, amended: [initializeUser] first issues a GET for the user; it
    issues a POST to create the user if and only if that GET returned
    status 404; once the GET has returned and the POST, when issued, has
    been answered (whatever its status), it then loads the task list;
    when the POST is rejected by the network it does not load the task
    list and shows the initialisation error. *)
Theorem C4_initializeUser_get_then_post_on_404_then_load :
  forall (w : World),
    let n := length (requests w) in
    (forall env s,
        let u := Monolith.username env in
        let r := Monolith.initializeUser env s w in
        (exists rest,
            requests (world_after r) = requests w ++ GET_user u :: rest /\
            (In (POST_user u) rest <->
             exists resp, network w n = Fulfilled resp /\ status resp = 404%Z)) /\
        (forall resp,
            network w n = Fulfilled resp ->
            (status resp = 404%Z -> network w (S n) <> Rejected) ->
            r = try_finally (Monolith.loadTasks env) (Monolith.setLoading false)
                  (Monolith.busy s)
                  (with_requests
                     (GET_user u ::
                      if (status resp =? 404)%Z then [POST_user u] else []) w)) /\
        (forall resp,
            network w n = Fulfilled resp ->
            status resp = 404%Z ->
            network w (S n) = Rejected ->
            requests (world_after r) = requests w ++ [GET_user u; POST_user u] /\
            Monolith.tasks (state_after r) = Monolith.tasks s /\
            Monolith.error (state_after r)
            = "Failed to initialize user. Please try again.")) /\
    (forall u s,
        let r := Split.initializeUser u s w in
        (exists rest,
            requests (world_after r) = requests w ++ GET_user u :: rest /\
            (In (POST_user u) rest <->
             exists resp, network w n = Fulfilled resp /\ status resp = 404%Z)) /\
        (forall resp,
            network w n = Fulfilled resp ->
            (status resp = 404%Z -> network w (S n) <> Rejected) ->
            r = try_finally (Split.loadTasks u) (Split.setLoading false)
                  (Split.busy s)
                  (with_requests
                     (GET_user u ::
                      if (status resp =? 404)%Z then [POST_user u] else []) w)) /\
        (forall resp,
            network w n = Fulfilled resp ->
            status resp = 404%Z ->
            network w (S n) = Rejected ->
            requests (world_after r) = requests w ++ [GET_user u; POST_user u] /\
            Split.tasks (state_after r) = Split.tasks s /\
            Split.error (state_after r)
            = "Failed to initialize user. Please try again.")).
Proof.
  intros w n. subst n. split.
  - intros env s u r. subst r u. split; [|split].
    + eexists. split; [apply initializeUser_requests | apply POST_iff_404].
    + intros resp Hnet Hpost.
      rewrite MonolithFacts.initializeUser_run, Hnet. cbv zeta.
      destruct (status resp =? 404)%Z eqn:H404.
      * apply Z.eqb_eq in H404. specialize (Hpost H404).
        destruct (network w (S _)); [congruence|].
        rewrite with_request_two. reflexivity.
      * rewrite with_request_one. reflexivity.
    + intros resp Hnet H404 Hrej.
      rewrite initializeUser_requests, MonolithFacts.initializeUser_run.
      cbv zeta. rewrite Hnet, Hrej. apply Z.eqb_eq in H404.
      unfold requests_after_GET. rewrite H404. auto.
  - intros u s r. subst r. split; [|split].
    + eexists. split; [apply TodoApp_initializeUser_requests | apply POST_iff_404].
    + intros resp Hnet Hpost.
      rewrite SplitFacts.TodoApp_initializeUser_run, Hnet. cbv zeta.
      destruct (status resp =? 404)%Z eqn:H404.
      * apply Z.eqb_eq in H404. specialize (Hpost H404).
        destruct (network w (S _)); [congruence|].
        rewrite with_request_two. reflexivity.
      * rewrite with_request_one. reflexivity.
    + intros resp Hnet H404 Hrej.
      rewrite TodoApp_initializeUser_requests,
        SplitFacts.TodoApp_initializeUser_run.
      cbv zeta. rewrite Hnet, Hrej. apply Z.eqb_eq in H404.
      unfold requests_after_GET. rewrite H404. auto.
Qed.

(** C4, amended, at a server that answers 404 and then creates the
    user, and at one that becomes unreachable after the 404. *)
Lemma C4_initializeUser_get_then_post_on_404_then_load_witness :
  let w := scripted [Fulfilled (mkResponse 404 None);
                     Fulfilled (mkResponse 201 None);
                     Fulfilled (mkResponse 200 (Some (sample_user "bob" [])))] in
  let w' := scripted [Fulfilled (mkResponse 404 None)] in
  network w 1 <> Rejected /\
  network w' 1 = Rejected /\
  Monolith.initializeUser (bob_page [] "") (bob_page [] "") w
  = try_finally (Monolith.loadTasks (bob_page [] "")) (Monolith.setLoading false)
      (Monolith.busy (bob_page [] ""))
      (with_requests [GET_user "bob"; POST_user "bob"] w) /\
  Split.initializeUser "bob" (bob_app []) w
  = try_finally (Split.loadTasks "bob") (Split.setLoading false)
      (Split.busy (bob_app []))
      (with_requests [GET_user "bob"; POST_user "bob"] w) /\
  requests (world_after (Monolith.initializeUser (bob_page [] "")
                                                 (bob_page [] "") w'))
  = [GET_user "bob"; POST_user "bob"] /\
  requests (world_after (Split.initializeUser "bob" (bob_app []) w'))
  = [GET_user "bob"; POST_user "bob"].
Proof.
  intros w w'.
  assert (Hpost : network w 1 <> Rejected) by discriminate.
  destruct (C4_initializeUser_get_then_post_on_404_then_load w) as [HM HS].
  destruct (C4_initializeUser_get_then_post_on_404_then_load w') as [HM' HS'].
  destruct (HM (bob_page [] "") (bob_page [] "")) as (_ & Hload & _).
  destruct (HS "bob" (bob_app [])) as (_ & Hload' & _).
  destruct (HM' (bob_page [] "") (bob_page [] "")) as (_ & _ & Hskip).
  destruct (HS' "bob" (bob_app [])) as (_ & _ & Hskip').
  split; [exact Hpost|]. split; [reflexivity|].
  split; [apply (Hload (mkResponse 404 None) eq_refl (fun _ => Hpost))|].
  split; [apply (Hload' (mkResponse 404 None) eq_refl (fun _ => Hpost))|].
  split.
  - apply (Hskip (mkResponse 404 None) eq_refl eq_refl eq_refl).
  - apply (Hskip' (mkResponse 404 None) eq_refl eq_refl eq_refl).
Defined.

(** ** Mutations re-fetch the list *)

(** C3: after every successful [addTask], [deleteTask] or
    [clearAllTasks] -- a run that ends with no error message shown --
    the page has re-fetched the full list with a GET of the user, issued
    right after the request(s) of the mutation, and the list shown and
    the counter are exactly what the answer to that GET carries: nothing
    of the previous list or of the submitted text enters them. *)
Theorem C3_successful_mutation_shows_refetched_list :
  forall (w : World),
    (forall env s,
        blank (Monolith.inputTaskValue env) = false ->
        let r := Monolith.addTask env s w in
        Monolith.error (state_after r) = "" ->
        refetched (Monolith.username env)
                  [POST_todo (Monolith.username env)
                             (trim (Monolith.inputTaskValue env)) false]
                  w (world_after r)
                  (Monolith.tasks (state_after r))
                  (Monolith.totalTasksCreated (state_after r))) /\
    (forall env taskId s,
        let r := Monolith.deleteTask env taskId s w in
        Monolith.error (state_after r) = "" ->
        refetched (Monolith.username env) [DELETE_todo taskId]
                  w (world_after r)
                  (Monolith.tasks (state_after r))
                  (Monolith.totalTasksCreated (state_after r))) /\
    (forall env s,
        let r := Monolith.clearAllTasks env s w in
        Monolith.error (state_after r) = "" ->
        exists l,
          Monolith.tasks env = JArr l /\
          length (delete_requests l) = length l /\
          refetched (Monolith.username env) (delete_requests l)
                    w (world_after r)
                    (Monolith.tasks (state_after r))
                    (Monolith.totalTasksCreated (state_after r))) /\
    (forall u taskText s,
        let r := Split.handleAddTask u taskText s w in
        Split.error (state_after r) = "" ->
        refetched u [POST_todo u taskText false]
                  w (world_after r)
                  (Split.tasks (state_after r))
                  (Split.totalTasksCreated (state_after r))) /\
    (forall u taskId s,
        let r := Split.handleDeleteTask u taskId s w in
        Split.error (state_after r) = "" ->
        refetched u [DELETE_todo taskId]
                  w (world_after r)
                  (Split.tasks (state_after r))
                  (Split.totalTasksCreated (state_after r))) /\
    (forall u env s,
        let r := Split.handleClearAll u env s w in
        Split.error (state_after r) = "" ->
        exists l,
          Split.tasks env = JArr l /\
          length (delete_requests l) = length l /\
          refetched u (delete_requests l)
                    w (world_after r)
                    (Split.tasks (state_after r))
                    (Split.totalTasksCreated (state_after r))).
Proof.
  intros w. repeat apply conj.
  - intros env s Hb r. subst r.
    rewrite (MonolithFacts.addTask_run env s w Hb). cbv zeta.
    destruct (network w _) as [|resp]; [failed_run|].
    destruct (ok resp); [|failed_run].
    rewrite with_request_one. apply refetched_after_reload.
  - intros env taskId s r. subst r.
    rewrite MonolithFacts.deleteTask_run. cbv zeta.
    destruct (network w _) as [|resp]; [failed_run|].
    destruct (ok resp); [|failed_run].
    rewrite with_request_one. apply refetched_after_reload.
  - intros env s r. subst r.
    rewrite MonolithFacts.clearAllTasks_run.
    destruct (Monolith.tasks env) as [| | | | |l|]; try failed_run.
    cbv zeta. destruct (have_ids l) eqn:Hids; [|failed_run].
    destruct (all_fulfilled _); [|failed_run].
    intros Herr. exists l. split; [reflexivity|].
    split; [apply delete_requests_length, Hids|].
    apply refetched_after_reload, Herr.
  - intros u taskText s r. subst r.
    rewrite SplitFacts.handleAddTask_run. cbv zeta.
    destruct (network w _) as [|resp]; [failed_run|].
    destruct (ok resp); [|failed_run].
    destruct (body resp); [|failed_run].
    rewrite with_request_one. apply TodoApp_refetched_after_reload.
  - intros u taskId s r. subst r.
    rewrite SplitFacts.handleDeleteTask_run. cbv zeta.
    destruct (network w _) as [|resp]; [failed_run|].
    destruct (ok resp); [|failed_run].
    rewrite with_request_one. apply TodoApp_refetched_after_reload.
  - intros u env s r. subst r.
    rewrite SplitFacts.handleClearAll_run.
    destruct (Split.tasks env) as [| | | | |l|]; try failed_run.
    cbv zeta. destruct (have_ids l) eqn:Hids; [|failed_run].
    destruct (all_fulfilled _); [|failed_run].
    intros Herr. exists l. split; [reflexivity|].
    split; [apply delete_requests_length, Hids|].
    apply TodoApp_refetched_after_reload, Herr.
Qed.

(** C3 at the addition of the task milk, at the deletion of the task 7
    and at the clearing of a list of two tasks. *)
Lemma C3_successful_mutation_shows_refetched_list_witness :
  let milk := sample_task 7 "milk" in
  let eggs := sample_task 8 "eggs" in
  let add := scripted [Fulfilled (mkResponse 201 (Some milk));
                       Fulfilled (mkResponse 200 (Some (sample_user "bob" [milk])))] in
  let del := scripted [Fulfilled (mkResponse 204 None);
                       Fulfilled (mkResponse 200 (Some (sample_user "bob" [eggs])))] in
  let clr := scripted [Fulfilled (mkResponse 204 None);
                       Fulfilled (mkResponse 204 None);
                       Fulfilled (mkResponse 200 (Some (sample_user "bob" [])))] in
  let page := bob_page [milk; eggs] "milk" in
  let app := bob_app [milk; eggs] in
  blank (Monolith.inputTaskValue page) = false /\
  Monolith.error (state_after (Monolith.addTask page page add)) = "" /\
  refetched "bob" [POST_todo "bob" "milk" false] add
            (world_after (Monolith.addTask page page add))
            (JArr [milk]) (JNum 1) /\
  refetched "bob" [DELETE_todo (JNum 7)] del
            (world_after (Monolith.deleteTask page (JNum 7) page del))
            (JArr [eggs]) (JNum 1) /\
  (exists l, Monolith.tasks page = JArr l /\
             length (delete_requests l) = length l /\
             refetched "bob" (delete_requests l) clr
                       (world_after (Monolith.clearAllTasks page page clr))
                       (JArr []) (JNum 0)) /\
  refetched "bob" [POST_todo "bob" "milk" false] add
            (world_after (Split.handleAddTask "bob" "milk" app add))
            (JArr [milk]) (JNum 1) /\
  refetched "bob" [DELETE_todo (JNum 7)] del
            (world_after (Split.handleDeleteTask "bob" (JNum 7) app del))
            (JArr [eggs]) (JNum 1) /\
  (exists l, Split.tasks app = JArr l /\
             length (delete_requests l) = length l /\
             refetched "bob" (delete_requests l) clr
                       (world_after (Split.handleClearAll "bob" app app clr))
                       (JArr []) (JNum 0)).
Proof.
  intros milk eggs add del clr page app.
  destruct (C3_successful_mutation_shows_refetched_list add)
    as (Hadd & _ & _ & Hadd' & _).
  destruct (C3_successful_mutation_shows_refetched_list del)
    as (_ & Hdel & _ & _ & Hdel' & _).
  destruct (C3_successful_mutation_shows_refetched_list clr)
    as (_ & _ & Hclr & _ & _ & Hclr').
  split; [reflexivity|]. split; [reflexivity|].
  split; [apply (Hadd page page eq_refl eq_refl)|].
  split; [apply (Hdel page (JNum 7) page eq_refl)|].
  split; [apply (Hclr page page eq_refl)|].
  split; [apply (Hadd' "bob" "milk" app eq_refl)|].
  split; [apply (Hdel' "bob" (JNum 7) app eq_refl)|].
  apply (Hclr' "bob" app app eq_refl).
Defined.

(** ** Clearing all tasks *)

(** C1: a DELETE answered with an HTTP error is not a failure for
    [clearAllTasks].  With one task shown and the server answering the
    DELETE with status 500, the operation does not throw: it goes on to
    reload the list, shows no error and logs nothing, and the task is
    still listed.  On the same answer [deleteTask] gives up with its
    error message and does not reload. *)
Theorem C1_clearAllTasks_reloads_after_failed_delete :
  let w := scripted [Fulfilled (mkResponse 500 None);
                     Fulfilled (mkResponse 200
                       (Some (sample_user "bob" [sample_task 7 "milk"])))] in
  let page := bob_page [sample_task 7 "milk"] "" in
  let app := bob_app [sample_task 7 "milk"] in
  let m := Monolith.clearAllTasks page page w in
  let c := Split.handleClearAll "bob" app app w in
  let d := Monolith.deleteTask page (JNum 7) page w in
  let d' := Split.handleDeleteTask "bob" (JNum 7) app w in
  ok (mkResponse 500 None) = false /\
  (requests (world_after m) = [DELETE_todo (JNum 7); GET_user "bob"] /\
   Monolith.error (state_after m) = "" /\
   Monolith.tasks (state_after m) = JArr [sample_task 7 "milk"] /\
   console (world_after m) = []) /\
  (requests (world_after c) = [DELETE_todo (JNum 7); GET_user "bob"] /\
   Split.error (state_after c) = "" /\
   Split.tasks (state_after c) = JArr [sample_task 7 "milk"] /\
   console (world_after c) = []) /\
  (requests (world_after d) = [DELETE_todo (JNum 7)] /\
   Monolith.error (state_after d) = "Failed to delete task. Please try again.") /\
  (requests (world_after d') = [DELETE_todo (JNum 7)] /\
   Split.error (state_after d') = "Failed to delete task. Please try again.").
Proof. cbv zeta. repeat split; reflexivity. Qed.

(** * Further properties of the code *)

(** ** Further properties of the handlers *)

Lemma issued_app w w' new :
  requests w' = requests w ++ new -> issued w w' = new.
Proof. intros H. unfold issued. rewrite H. apply drop_app_length. Qed.

(** Case analysis on the answers that decide a run. *)
Ltac by_answers :=
  cbv zeta;
  rewrite ?MonolithFacts.reload_run, ?SplitFacts.TodoApp_reload_run;
  repeat match goal with
         | |- context [match ?x with _ => _ end] =>
             destruct x eqn:?;
             rewrite ?MonolithFacts.reload_run, ?SplitFacts.TodoApp_reload_run
         end.

Ltac run_monolith :=
  rewrite ?MonolithFacts.loadTasks_run, ?MonolithFacts.initializeUser_run,
    ?MonolithFacts.deleteTask_run, ?MonolithFacts.clearAllTasks_run;
  by_answers.

Ltac run_split :=
  rewrite ?SplitFacts.TodoApp_loadTasks_run,
    ?SplitFacts.TodoApp_initializeUser_run, ?SplitFacts.handleAddTask_run,
    ?SplitFacts.handleDeleteTask_run, ?SplitFacts.handleClearAll_run;
  by_answers.

(** X1: no handler ever throws: whatever the server answers, and
    whatever the state holds, each async handler catches every failure
    of its requests and of its own reads, so no rejection goes
    unhandled. *)
Theorem handlers_never_throw :
  forall (w : World),
    (forall env s,
        outcome_of (Monolith.loadTasks env s w) = Return tt /\
        outcome_of (Monolith.initializeUser env s w) = Return tt /\
        outcome_of (Monolith.addTask env s w) = Return tt /\
        (forall taskId,
            outcome_of (Monolith.deleteTask env taskId s w) = Return tt) /\
        outcome_of (Monolith.clearAllTasks env s w) = Return tt) /\
    (forall u env s,
        outcome_of (Split.loadTasks u s w) = Return tt /\
        outcome_of (Split.initializeUser u s w) = Return tt /\
        (forall taskText,
            outcome_of (Split.handleAddTask u taskText s w) = Return tt) /\
        (forall taskId,
            outcome_of (Split.handleDeleteTask u taskId s w) = Return tt) /\
        outcome_of (Split.handleClearAll u env s w) = Return tt).
Proof.
  intros w. split.
  - intros env s. repeat apply conj; intros.
    + run_monolith; reflexivity.
    + run_monolith; reflexivity.
    + destruct (blank (Monolith.inputTaskValue env)) eqn:Hb.
      * unfold Monolith.addTask. rewrite is_empty_trim, Hb. reflexivity.
      * rewrite (MonolithFacts.addTask_run env s w Hb).
        by_answers; reflexivity.
    + run_monolith; reflexivity.
    + run_monolith; reflexivity.
  - intros u env s. repeat apply conj; intros; run_split; reflexivity.
Qed.

(** X2: the loading flag is false at the end of every handler that set
    it, whether the handler succeeded or gave up. *)
Theorem loading_is_false_after_every_handler :
  forall (w : World),
    (forall env s,
        Monolith.loading (state_after (Monolith.initializeUser env s w)) = false /\
        (blank (Monolith.inputTaskValue env) = false ->
         Monolith.loading (state_after (Monolith.addTask env s w)) = false) /\
        (forall taskId,
            Monolith.loading (state_after (Monolith.deleteTask env taskId s w))
            = false) /\
        Monolith.loading (state_after (Monolith.clearAllTasks env s w)) = false) /\
    (forall u env s,
        Split.loading (state_after (Split.initializeUser u s w)) = false /\
        (forall taskText,
            Split.loading (state_after (Split.handleAddTask u taskText s w))
            = false) /\
        (forall taskId,
            Split.loading (state_after (Split.handleDeleteTask u taskId s w))
            = false) /\
        Split.loading (state_after (Split.handleClearAll u env s w)) = false).
Proof.
  intros w. split.
  - intros env s. repeat apply conj; intros.
    + run_monolith; reflexivity.
    + rewrite (MonolithFacts.addTask_run env s w H). by_answers; reflexivity.
    + run_monolith; reflexivity.
    + run_monolith; reflexivity.
  - intros u env s. repeat apply conj; intros; run_split; reflexivity.
Qed.

(** X2 at the addition of a task while the server is unreachable. *)
Lemma loading_is_false_after_every_handler_witness :
  let page := Monolith.mkState (JArr []) "milk" (JNum 0) true "" "bob" true in
  blank (Monolith.inputTaskValue page) = false /\
  Monolith.loading (state_after (Monolith.addTask page page (scripted []))) = false.
Proof.
  intros page. split; [reflexivity|].
  destruct (loading_is_false_after_every_handler (scripted [])) as [HM _].
  destruct (HM page page) as (_ & H & _). apply H. reflexivity.
Defined.

Lemma with_requests_app rs rs' w :
  with_requests rs' (with_requests rs w) = with_requests (rs ++ rs') w.
Proof. world_eq. Qed.

Lemma issued_with_requests rs w : issued w (with_requests rs w) = rs.
Proof. apply issued_app. reflexivity. Qed.

Lemma issued_with_console message w w' :
  issued w (with_console message w') = issued w w'.
Proof. reflexivity. Qed.

Lemma issued_same w : issued w w = [].
Proof. unfold issued. apply drop_all. Qed.

(** Brings the log of a finished run to the list of what was issued. *)
Ltac log_simpl :=
  unfold world_after, state_after, outcome_of, Monolith.aborted, Split.aborted;
  cbn [fst snd];
  rewrite ?issued_with_console, ?with_request_one, ?with_requests_app,
    ?issued_with_requests, ?issued_same;
  cbn [app].

(** What [TaskInput] does with a submitted text that is not blank. *)
Lemma submit_task_run u app input w :
  blank input = false ->
  Split.submit_task u (app, input) w =
  (Return tt,
   (state_after (Split.handleAddTask u (trim input) app w), ""),
   world_after (Split.handleAddTask u (trim input) app w)).
Proof.
  intros Hb. unfold Split.submit_task, Split.TaskInput_handleSubmit.
  cbn [snd]. rewrite is_empty_trim, Hb.
  unfold Split.setInputValue, bind, zoom, floating, set_state,
    state_after, world_after.
  cbn [fst snd].
  destruct (Split.handleAddTask u (trim input) app w) as [[o s'] w'].
  reflexivity.
Qed.

Lemma trim_not_blank s : blank s = false -> trim s <> "".
Proof.
  intros Hb He. pose proof (is_empty_trim s) as H.
  rewrite He, Hb in H. discriminate.
Qed.

(** X3: a mutation whose own request fails -- rejected by the network
    or answered with a status that is not ok -- gives up at once: the
    request is the only one issued (the list is not re-fetched), the
    list and the counter keep their values, and the message of the
    action is shown. *)
Theorem failed_mutation_gives_up_without_reload :
  forall (w : World),
    (network w (length (requests w)) = Rejected \/
     exists resp, network w (length (requests w)) = Fulfilled resp /\
                  ok resp = false) ->
    (forall env s,
        blank (Monolith.inputTaskValue env) = false ->
        let r := Monolith.addTask env s w in
        issued w (world_after r)
        = [POST_todo (Monolith.username env)
                     (trim (Monolith.inputTaskValue env)) false] /\
        Monolith.tasks (state_after r) = Monolith.tasks s /\
        Monolith.totalTasksCreated (state_after r)
        = Monolith.totalTasksCreated s /\
        Monolith.error (state_after r) = "Failed to add task. Please try again.") /\
    (forall env taskId s,
        let r := Monolith.deleteTask env taskId s w in
        issued w (world_after r) = [DELETE_todo taskId] /\
        Monolith.tasks (state_after r) = Monolith.tasks s /\
        Monolith.totalTasksCreated (state_after r)
        = Monolith.totalTasksCreated s /\
        Monolith.error (state_after r)
        = "Failed to delete task. Please try again.") /\
    (forall u taskText s,
        let r := Split.handleAddTask u taskText s w in
        issued w (world_after r) = [POST_todo u taskText false] /\
        Split.tasks (state_after r) = Split.tasks s /\
        Split.totalTasksCreated (state_after r) = Split.totalTasksCreated s /\
        Split.error (state_after r) = "Failed to add task. Please try again.") /\
    (forall u taskId s,
        let r := Split.handleDeleteTask u taskId s w in
        issued w (world_after r) = [DELETE_todo taskId] /\
        Split.tasks (state_after r) = Split.tasks s /\
        Split.totalTasksCreated (state_after r) = Split.totalTasksCreated s /\
        Split.error (state_after r) = "Failed to delete task. Please try again.").
Proof.
  intros w Hfail.
  assert (Hcases : forall (A : Type) (a b : A),
             match network w (length (requests w)) with
             | Rejected => a
             | Fulfilled r => if ok r then b else a
             end = a).
  { intros A a b. destruct Hfail as [-> | (resp & -> & ->)]; reflexivity. }
  repeat apply conj.
  - intros env s Hb r. subst r.
    rewrite (MonolithFacts.addTask_run env s w Hb). cbv zeta.
    rewrite Hcases. log_simpl. auto.
  - intros env taskId s r. subst r.
    rewrite MonolithFacts.deleteTask_run. cbv zeta.
    rewrite Hcases. log_simpl. auto.
  - intros u taskText s r. subst r.
    rewrite SplitFacts.handleAddTask_run. cbv zeta.
    destruct Hfail as [-> | (resp & -> & ->)]; log_simpl; auto.
  - intros u taskId s r. subst r.
    rewrite SplitFacts.handleDeleteTask_run. cbv zeta.
    rewrite Hcases. log_simpl. auto.
Qed.

(** X3 at a server that answers 500. *)
Lemma failed_mutation_gives_up_without_reload_witness :
  let w := scripted [Fulfilled (mkResponse 500 None);
                     Fulfilled (mkResponse 200 (Some (sample_user "bob" [])))] in
  let page := bob_page [sample_task 7 "milk"] "eggs" in
  ok (mkResponse 500 None) = false /\
  blank (Monolith.inputTaskValue page) = false /\
  issued w (world_after (Monolith.addTask page page w))
  = [POST_todo "bob" "eggs" false] /\
  Split.tasks (state_after (Split.handleDeleteTask "bob" (JNum 7)
                              (bob_app [sample_task 7 "milk"]) w))
  = JArr [sample_task 7 "milk"].
Proof.
  intros w page.
  assert (Hfail : network w (length (requests w)) = Rejected \/
                  exists resp, network w (length (requests w)) = Fulfilled resp /\
                               ok resp = false).
  { right. exists (mkResponse 500 None). split; reflexivity. }
  destruct (failed_mutation_gives_up_without_reload w Hfail)
    as (Hadd & _ & _ & Hdel).
  split; [reflexivity|]. split; [reflexivity|]. split.
  - destruct (Hadd page page eq_refl) as (H & _). exact H.
  - destruct (Hdel "bob" (JNum 7) (bob_app [sample_task 7 "milk"]))
      as (_ & H & _). exact H.
Defined.

Lemma second_reply r w :
  network (with_request r w) (length (requests (with_request r w)))
  = network w (S (length (requests w))).
Proof. cbn [network requests with_request]. rewrite length_app, Nat.add_1_r. reflexivity. Qed.

(** Brings the state of a finished run to its fields. *)
Ltac state_simpl :=
  unfold Monolith.idle, Monolith.failed, Monolith.loaded, Monolith.busy,
    Monolith.input_cleared, Split.idle, Split.failed, Split.loaded, Split.busy;
  cbn [Monolith.tasks Monolith.inputTaskValue Monolith.totalTasksCreated
       Monolith.loading Monolith.error Monolith.username Monolith.isUserSet
       Split.tasks Split.totalTasksCreated Split.loading Split.error].

(** X4: when the request of a mutation succeeds but the re-fetch that
    follows fails, the handler reports a failure to load, not a failure
    of the action: the list and the counter keep their values from
    before the mutation, both requests have been issued, and in the
    single component the input box has been emptied. *)
Theorem failed_reload_after_mutation_shows_stale_list :
  forall (w : World) (resp : Response),
    network w (length (requests w)) = Fulfilled resp ->
    ok resp = true ->
    fetched_todos (network w (S (length (requests w)))) = None ->
    (forall env s,
        blank (Monolith.inputTaskValue env) = false ->
        let r := Monolith.addTask env s w in
        issued w (world_after r)
        = [POST_todo (Monolith.username env)
                     (trim (Monolith.inputTaskValue env)) false;
           GET_user (Monolith.username env)] /\
        Monolith.tasks (state_after r) = Monolith.tasks s /\
        Monolith.totalTasksCreated (state_after r)
        = Monolith.totalTasksCreated s /\
        Monolith.inputTaskValue (state_after r) = "" /\
        Monolith.error (state_after r) = "Failed to load tasks. Please try again.") /\
    (forall env taskId s,
        let r := Monolith.deleteTask env taskId s w in
        issued w (world_after r)
        = [DELETE_todo taskId; GET_user (Monolith.username env)] /\
        Monolith.tasks (state_after r) = Monolith.tasks s /\
        Monolith.totalTasksCreated (state_after r)
        = Monolith.totalTasksCreated s /\
        Monolith.error (state_after r) = "Failed to load tasks. Please try again.") /\
    (forall u taskText s,
        body resp <> None ->
        let r := Split.handleAddTask u taskText s w in
        issued w (world_after r) = [POST_todo u taskText false; GET_user u] /\
        Split.tasks (state_after r) = Split.tasks s /\
        Split.totalTasksCreated (state_after r) = Split.totalTasksCreated s /\
        Split.error (state_after r) = "Failed to load tasks. Please try again.") /\
    (forall u taskId s,
        let r := Split.handleDeleteTask u taskId s w in
        issued w (world_after r) = [DELETE_todo taskId; GET_user u] /\
        Split.tasks (state_after r) = Split.tasks s /\
        Split.totalTasksCreated (state_after r) = Split.totalTasksCreated s /\
        Split.error (state_after r) = "Failed to load tasks. Please try again.").
Proof.
  intros w resp Hnet Hok Hload. repeat apply conj.
  - intros env s Hb r. subst r.
    rewrite (MonolithFacts.addTask_run env s w Hb). cbv zeta.
    rewrite Hnet, Hok, MonolithFacts.reload_run, second_reply, Hload.
    log_simpl. auto.
  - intros env taskId s r. subst r.
    rewrite MonolithFacts.deleteTask_run. cbv zeta.
    rewrite Hnet, Hok, MonolithFacts.reload_run, second_reply, Hload.
    log_simpl. auto.
  - intros u taskText s Hbody r. subst r.
    rewrite SplitFacts.handleAddTask_run. cbv zeta.
    rewrite Hnet, Hok. destruct (body resp); [|congruence].
    rewrite SplitFacts.TodoApp_reload_run, second_reply, Hload.
    log_simpl. auto.
  - intros u taskId s r. subst r.
    rewrite SplitFacts.handleDeleteTask_run. cbv zeta.
    rewrite Hnet, Hok, SplitFacts.TodoApp_reload_run, second_reply, Hload.
    log_simpl. auto.
Qed.

(** X4 at a server that accepts the task and then becomes unreachable. *)
Lemma failed_reload_after_mutation_shows_stale_list_witness :
  let w := scripted [Fulfilled (mkResponse 201 (Some (sample_task 8 "eggs")))] in
  let page := bob_page [sample_task 7 "milk"] "eggs" in
  let app := bob_app [sample_task 7 "milk"] in
  blank (Monolith.inputTaskValue page) = false /\
  Monolith.tasks (state_after (Monolith.addTask page page w))
  = JArr [sample_task 7 "milk"] /\
  Monolith.inputTaskValue (state_after (Monolith.addTask page page w)) = "" /\
  Split.error (state_after (Split.handleAddTask "bob" "eggs" app w))
  = "Failed to load tasks. Please try again.".
Proof.
  intros w page app.
  destruct (failed_reload_after_mutation_shows_stale_list w
              (mkResponse 201 (Some (sample_task 8 "eggs")))
              eq_refl eq_refl eq_refl) as (Hadd & _ & Hadd' & _).
  destruct (Hadd page page eq_refl) as (_ & H1 & _ & H2 & _).
  assert (Hbody : body (mkResponse 201 (Some (sample_task 8 "eggs"))) <> None)
    by discriminate.
  destruct (Hadd' "bob" "eggs" app Hbody) as (_ & _ & _ & H3).
  split; [reflexivity|]. split; [exact H1|]. split; [exact H2|exact H3].
Defined.

(** X5: what becomes of the typed text.  The single component empties
    the input box exactly when the POST was answered ok, and keeps the
    text for a retry otherwise; [TaskInput] empties its box on every
    submission of a text that is not blank, also when adding fails. *)
Theorem input_box_after_adding :
  forall (w : World),
    (forall s,
        blank (Monolith.inputTaskValue s) = false ->
        let r := Monolith.addTask s s w in
        (Monolith.inputTaskValue (state_after r) = "" <->
         exists resp, network w (length (requests w)) = Fulfilled resp /\
                      ok resp = true) /\
        (Monolith.inputTaskValue (state_after r) = "" \/
         Monolith.inputTaskValue (state_after r) = Monolith.inputTaskValue s)) /\
    (forall u app input,
        blank input = false ->
        snd (state_after (Split.submit_task u (app, input) w)) = "").
Proof.
  intros w. split.
  - intros s Hb r. subst r.
    assert (Hne : Monolith.inputTaskValue s <> "").
    { intros He. rewrite He in Hb. discriminate. }
    rewrite (MonolithFacts.addTask_run s s w Hb). cbv zeta.
    destruct (network w (length (requests w))) as [|resp].
    + log_simpl. state_simpl. split; [|auto]. split; [congruence|].
      intros (resp & Hr & _). discriminate.
    + destruct (ok resp) eqn:Hok.
      * rewrite MonolithFacts.reload_run.
        destruct (fetched_todos _); log_simpl; state_simpl;
          (split; [split; [intros _; exists resp; auto | reflexivity]
                  | left; reflexivity]).
      * log_simpl. state_simpl. split; [|auto]. split; [congruence|].
        intros (resp' & Hr & Hok'). congruence.
  - intros u app input Hb. rewrite (submit_task_run u app input w Hb).
    reflexivity.
Qed.

(** X5 at a server that answers 500. *)
Lemma input_box_after_adding_witness :
  let w := scripted [Fulfilled (mkResponse 500 None)] in
  let page := bob_page [] "eggs" in
  blank (Monolith.inputTaskValue page) = false /\
  Monolith.inputTaskValue (state_after (Monolith.addTask page page w)) <> "" /\
  snd (state_after (Split.submit_task "bob" (bob_app [], "eggs") w)) = "".
Proof.
  intros w page.
  destruct (input_box_after_adding w) as [HM HS].
  destruct (HM page eq_refl) as [Hiff _].
  split; [reflexivity|]. split.
  - intros He. apply Hiff in He. destruct He as (resp & Hr & Hok).
    injection Hr as <-. discriminate.
  - apply HS. reflexivity.
Defined.

Ltac in_cases H :=
  cbn [In] in H;
  repeat (destruct H as [H|H]; [try discriminate H|]);
  try contradiction.

(** X6: a task is never added with an empty label.  Adding issues a
    request only when the typed text is not blank; the POST it then
    issues comes first and carries the trimmed text, which is not
    empty, the username of the render and [is_done: false]; no other
    POST follows. *)
Theorem added_label_is_trimmed_and_not_empty :
  forall (w : World),
    (forall env s,
        let sent := issued w (world_after (Monolith.addTask env s w)) in
        (blank (Monolith.inputTaskValue env) = true -> sent = []) /\
        (blank (Monolith.inputTaskValue env) = false ->
         exists rest,
           sent = POST_todo (Monolith.username env)
                            (trim (Monolith.inputTaskValue env)) false :: rest /\
           forall u l d, ~ In (POST_todo u l d) rest) /\
        (forall u l d, In (POST_todo u l d) sent -> l <> "")) /\
    (forall u0 app input,
        let sent := issued w (world_after (Split.submit_task u0 (app, input) w)) in
        (blank input = true -> sent = []) /\
        (blank input = false ->
         exists rest,
           sent = POST_todo u0 (trim input) false :: rest /\
           forall u l d, ~ In (POST_todo u l d) rest) /\
        (forall u l d, In (POST_todo u l d) sent -> l <> "")).
Proof.
  intros w. split.
  - intros env s sent. subst sent.
    destruct (blank (Monolith.inputTaskValue env)) eqn:Hb.
    + unfold Monolith.addTask. rewrite is_empty_trim, Hb. log_simpl.
      split; [reflexivity|]. split; [discriminate|]. intros u l d [].
    + pose proof (trim_not_blank _ Hb) as Hne.
      rewrite (MonolithFacts.addTask_run env s w Hb).
      split; [discriminate|].
      by_answers; log_simpl;
        (split;
         [ intros _; eexists; split; [reflexivity|];
           intros u l d Hin; in_cases Hin
         | intros u l d Hin; in_cases Hin; injection Hin as <- <- <-;
           exact Hne ]).
  - intros u0 app input sent. subst sent.
    destruct (blank input) eqn:Hb.
    + unfold Split.submit_task, Split.TaskInput_handleSubmit. cbn [snd].
      rewrite is_empty_trim, Hb. log_simpl.
      split; [reflexivity|]. split; [discriminate|]. intros u l d [].
    + pose proof (trim_not_blank _ Hb) as Hne.
      rewrite (submit_task_run u0 app input w Hb).
      unfold world_after at 1. cbn [snd].
      rewrite SplitFacts.handleAddTask_run.
      split; [discriminate|].
      by_answers; log_simpl;
        (split;
         [ intros _; eexists; split; [reflexivity|];
           intros u l d Hin; in_cases Hin
         | intros u l d Hin; in_cases Hin; injection Hin as <- <- <-;
           exact Hne ]).
Qed.

(** X6 at the text eggs preceded by a space, and at a single space. *)
Lemma added_label_is_trimmed_and_not_empty_witness :
  let w := scripted [Fulfilled (mkResponse 201 (Some (sample_task 8 "eggs")))] in
  let input := String (ascii_of_nat 32) "eggs" in
  let page := bob_page [] input in
  blank (Monolith.inputTaskValue page) = false /\
  blank (String (ascii_of_nat 32) "") = true /\
  (exists rest,
      issued w (world_after (Monolith.addTask page page w))
      = POST_todo "bob" "eggs" false :: rest /\
      forall u l d, ~ In (POST_todo u l d) rest) /\
  issued w (world_after (Split.submit_task "bob"
                           (bob_app [], String (ascii_of_nat 32) "") w)) = [] /\
  "eggs" <> "".
Proof.
  intros w input page.
  destruct (added_label_is_trimmed_and_not_empty w) as [HM HS].
  destruct (HM page page) as (_ & Hpost & Hlabel).
  destruct (HS "bob" (bob_app []) (String (ascii_of_nat 32) "")) as (Hnone & _).
  split; [reflexivity|]. split; [reflexivity|].
  split; [apply Hpost; reflexivity|].
  split; [apply Hnone; reflexivity|].
  apply (Hlabel "bob" "eggs" false). left. reflexivity.
Defined.

Lemma delete_requests_map l :
  have_ids l = true ->
  delete_requests l = map (fun task => DELETE_todo (get_prop_opt task p_id)) l.
Proof.
  induction l as [|t l IH]; [reflexivity|].
  cbn [have_ids delete_requests map]. unfold get_prop_opt at 1.
  destruct (get_prop t p_id); [|discriminate].
  intros H. rewrite IH by assumption. reflexivity.
Qed.

Lemma delete_requests_le l : (length (delete_requests l) <= length l)%nat.
Proof.
  induction l as [|t l IH]; simpl; [lia|].
  destruct (get_prop t p_id); simpl; lia.
Qed.

Lemma replies_In w n k p :
  In p (replies w n k) -> exists i, (i < k)%nat /\ network w (n + i) = p.
Proof.
  unfold replies. intros Hin. apply in_map_iff in Hin.
  destruct Hin as (j & Hj & Hin). apply in_seq in Hin.
  exists (j - n)%nat. split; [lia|]. rewrite <- Hj. f_equal. lia.
Qed.

(** All the DELETE requests were answered exactly when [Promise.all]
    fulfils. *)
Lemma all_fulfilled_iff w n k :
  (exists rs, all_fulfilled (replies w n k) = Some rs) <->
  (forall i, (i < k)%nat -> network w (n + i) <> Rejected).
Proof.
  split.
  - intros [rs Hrs] i Hi Hrej.
    rewrite (all_fulfilled_rejected _ (rejected_among_replies w n k i Hi Hrej))
      in Hrs. discriminate.
  - intros Hall. destruct (all_fulfilled (replies w n k)) as [rs|] eqn:Hf;
      [eauto|].
    apply all_fulfilled_none in Hf. apply replies_In in Hf.
    destruct Hf as (i & Hi & Hrej). destruct (Hall i Hi Hrej).
Qed.

(** X7: clearing a list of tasks with readable ids issues one DELETE
    per task, in the order of the list and with the id of each task,
    whatever the server answers: a rejected DELETE does not stop the
    later ones from being issued.  The list is then re-fetched exactly
    when no DELETE was rejected by the network. *)
Theorem clearAllTasks_issues_a_delete_for_every_task :
  forall (w : World) (l : list jsval),
    have_ids l = true ->
    let deletes := map (fun task => DELETE_todo (get_prop_opt task p_id)) l in
    let answered :=
      forall i, (i < length l)%nat ->
                network w (length (requests w) + i) <> Rejected in
    (forall env s,
        Monolith.tasks env = JArr l ->
        exists rest,
          issued w (world_after (Monolith.clearAllTasks env s w))
          = deletes ++ rest /\
          (rest = [] \/ rest = [GET_user (Monolith.username env)]) /\
          (rest = [GET_user (Monolith.username env)] <-> answered)) /\
    (forall u env s,
        Split.tasks env = JArr l ->
        exists rest,
          issued w (world_after (Split.handleClearAll u env s w))
          = deletes ++ rest /\
          (rest = [] \/ rest = [GET_user u]) /\
          (rest = [GET_user u] <-> answered)).
Proof.
  intros w l Hids deletes answered. subst deletes answered.
  rewrite <- (delete_requests_map l Hids).
  pose proof (all_fulfilled_iff w (length (requests w)) (length l)) as Hiff.
  split.
  - intros env s Ht.
    rewrite MonolithFacts.clearAllTasks_run, Ht, Hids. cbv zeta.
    destruct (all_fulfilled _) as [rs|].
    + exists [GET_user (Monolith.username env)].
      rewrite MonolithFacts.reload_run.
      split; [destruct (fetched_todos _); log_simpl; reflexivity|].
      split; [auto|]. split; [intros _; apply Hiff; eauto|reflexivity].
    + exists []. split; [log_simpl; rewrite app_nil_r; reflexivity|].
      split; [auto|]. split; [discriminate|].
      intros Hall. apply Hiff in Hall. destruct Hall. discriminate.
  - intros u env s Ht.
    rewrite SplitFacts.handleClearAll_run, Ht, Hids. cbv zeta.
    destruct (all_fulfilled _) as [rs|].
    + exists [GET_user u].
      rewrite SplitFacts.TodoApp_reload_run.
      split; [destruct (fetched_todos _); log_simpl; reflexivity|].
      split; [auto|]. split; [intros _; apply Hiff; eauto|reflexivity].
    + exists []. split; [log_simpl; rewrite app_nil_r; reflexivity|].
      split; [auto|]. split; [discriminate|].
      intros Hall. apply Hiff in Hall. destruct Hall. discriminate.
Qed.

(** X7 at two tasks, the DELETE of the first being rejected. *)
Lemma clearAllTasks_issues_a_delete_for_every_task_witness :
  let l := [sample_task 7 "milk"; sample_task 8 "eggs"] in
  let w := scripted [Rejected; Fulfilled (mkResponse 204 None)] in
  have_ids l = true /\
  exists rest,
    issued w (world_after (Monolith.clearAllTasks (bob_page l "") (bob_page l "") w))
    = [DELETE_todo (JNum 7); DELETE_todo (JNum 8)] ++ rest /\
    (rest = [] \/ rest = [GET_user "bob"]).
Proof.
  intros l w. split; [reflexivity|].
  destruct (clearAllTasks_issues_a_delete_for_every_task w l eq_refl) as [HM _].
  destruct (HM (bob_page l "") (bob_page l "") eq_refl) as (rest & H1 & H2 & _).
  exists rest. split; [exact H1|exact H2].
Defined.


Ltac count_requests :=
  by_answers; log_simpl; rewrite ?length_app; cbn [length]; lia.

(** X8: no request is ever retried or repeated.  Loading issues exactly
    one request; initialising between one and three; adding at most two;
    deleting one or two; clearing at most one per task and one more. *)
Theorem handlers_issue_boundedly_many_requests :
  forall (w : World),
    (forall env s,
        let sent r := length (issued w (world_after r)) in
        sent (Monolith.loadTasks env s w) = 1%nat /\
        (1 <= sent (Monolith.initializeUser env s w) <= 3)%nat /\
        (sent (Monolith.addTask env s w) <= 2)%nat /\
        (forall taskId,
            (1 <= sent (Monolith.deleteTask env taskId s w) <= 2)%nat) /\
        (forall l, Monolith.tasks env = JArr l ->
                   (sent (Monolith.clearAllTasks env s w) <= length l + 1)%nat)) /\
    (forall u env s,
        let sent r := length (issued w (world_after r)) in
        sent (Split.loadTasks u s w) = 1%nat /\
        (1 <= sent (Split.initializeUser u s w) <= 3)%nat /\
        (forall taskText,
            (1 <= sent (Split.handleAddTask u taskText s w) <= 2)%nat) /\
        (forall taskId,
            (1 <= sent (Split.handleDeleteTask u taskId s w) <= 2)%nat) /\
        (forall l, Split.tasks env = JArr l ->
                   (sent (Split.handleClearAll u env s w) <= length l + 1)%nat)).
Proof.
  intros w. split.
  - intros env s sent. subst sent. cbv beta. repeat apply conj; intros.
    + rewrite MonolithFacts.loadTasks_run. count_requests.
    + rewrite MonolithFacts.initializeUser_run. count_requests.
    + rewrite MonolithFacts.initializeUser_run. count_requests.
    + destruct (blank (Monolith.inputTaskValue env)) eqn:Hb.
      * unfold Monolith.addTask. rewrite is_empty_trim, Hb. log_simpl.
        cbn [length]. lia.
      * rewrite (MonolithFacts.addTask_run env s w Hb). count_requests.
    + rewrite MonolithFacts.deleteTask_run. count_requests.
    + rewrite MonolithFacts.clearAllTasks_run, H.
      pose proof (delete_requests_le l). count_requests.
  - intros u env s sent. subst sent. cbv beta. repeat apply conj; intros.
    + rewrite SplitFacts.TodoApp_loadTasks_run. count_requests.
    + rewrite SplitFacts.TodoApp_initializeUser_run. count_requests.
    + rewrite SplitFacts.TodoApp_initializeUser_run. count_requests.
    + rewrite SplitFacts.handleAddTask_run. count_requests.
    + rewrite SplitFacts.handleDeleteTask_run. count_requests.
    + rewrite SplitFacts.handleClearAll_run, H.
      pose proof (delete_requests_le l). count_requests.
Qed.

(** X8 at the clearing of two tasks. *)
Lemma handlers_issue_boundedly_many_requests_witness :
  let l := [sample_task 7 "milk"; sample_task 8 "eggs"] in
  Monolith.tasks (bob_page l "") = JArr l /\
  (length (issued (scripted [])
             (world_after (Monolith.clearAllTasks (bob_page l "") (bob_page l "")
                                                  (scripted []))))
   <= 3)%nat.
Proof.
  intros l. split; [reflexivity|].
  destruct (handlers_issue_boundedly_many_requests (scripted [])) as [HM _].
  destruct (HM (bob_page l "") (bob_page l "")) as (_ & _ & _ & _ & H).
  apply (H l eq_refl).
Defined.

Ltac frame := by_answers; log_simpl; repeat split; reflexivity.

(** X9: the handlers of the task list touch nothing of the browser
    but the network and the console: the session storage is neither
    read nor written and no dialog is shown.  In the single component
    they also leave the username and the login flag alone. *)
Theorem task_handlers_leave_session_alone :
  forall (w : World),
    (forall env s,
        let kept r := only_log_and_console w (world_after r) /\
                      same_user s (state_after r) in
        kept (Monolith.loadTasks env s w) /\
        kept (Monolith.initializeUser env s w) /\
        kept (Monolith.addTask env s w) /\
        (forall taskId, kept (Monolith.deleteTask env taskId s w)) /\
        kept (Monolith.clearAllTasks env s w)) /\
    (forall u env s,
        let kept (r : outcome unit * Split.TodoApp * World) :=
          only_log_and_console w (world_after r) in
        kept (Split.loadTasks u s w) /\
        kept (Split.initializeUser u s w) /\
        (forall taskText, kept (Split.handleAddTask u taskText s w)) /\
        (forall taskId, kept (Split.handleDeleteTask u taskId s w)) /\
        kept (Split.handleClearAll u env s w)).
Proof.
  intros w. split.
  - intros env s. cbv zeta beta. unfold only_log_and_console, same_user.
    repeat apply conj; intros.
    all: try (destruct (blank (Monolith.inputTaskValue env)) eqn:Hb;
              [ unfold Monolith.addTask; rewrite is_empty_trim, Hb;
                repeat split; reflexivity
              | rewrite (MonolithFacts.addTask_run env s w Hb); frame ]).
    all: run_monolith; log_simpl; repeat split; reflexivity.
  - intros u env s. cbv zeta beta. unfold only_log_and_console.
    repeat apply conj; intros.
    all: run_split; log_simpl; repeat split; reflexivity.
Qed.

(** ** Further properties of the username gate *)

(** X10: on mount [Home] restores the session: a non-empty username
    saved in the session storage is taken as the username and the task
    view is shown for it; with no saved username, or an empty one, the
    state is left as it is.  Mounting writes nothing and requests
    nothing. *)
Theorem Home_mount_restores_saved_username :
  forall (h : Split.Home) (w : World),
    let r := Split.Home_mount h w in
    outcome_of r = Return tt /\
    world_after r = w /\
    (forall u, sessionStorage w !! "todoUsername" = Some u -> u <> "" ->
               state_after r = Split.mkHome u true /\
               Split.screen (state_after r) = Split.TodoAppScreen u) /\
    (sessionStorage w !! "todoUsername" = None \/
     sessionStorage w !! "todoUsername" = Some "" ->
     state_after r = h).
Proof.
  intros h w r. subst r.
  unfold Split.Home_mount, sessionStorage_getItem, Split.setUsername,
    Split.setIsUserSet, bind, set_state, ret, outcome_of, state_after,
    world_after.
  destruct (sessionStorage w !! "todoUsername") as [saved|] eqn:Hs.
  - destruct saved as [|c saved]; cbn.
    + split; [reflexivity|]. split; [reflexivity|]. split; [|auto].
      intros u Hu Hne. congruence.
    + split; [reflexivity|]. split; [reflexivity|]. split.
      * intros u Hu Hne. injection Hu as <-. split; reflexivity.
      * intros [H|H]; discriminate.
  - cbn. split; [reflexivity|]. split; [reflexivity|]. split; [|auto].
    intros u Hu. discriminate.
Qed.

(** X10 at a storage holding bob and at an empty storage. *)
Lemma Home_mount_restores_saved_username_witness :
  let w := with_storage {["todoUsername" := "bob"]} (scripted []) in
  sessionStorage w !! "todoUsername" = Some "bob" /\
  "bob" <> "" /\
  Split.screen (state_after (Split.Home_mount Split.Home_initial w))
  = Split.TodoAppScreen "bob" /\
  state_after (Split.Home_mount Split.Home_initial (scripted []))
  = Split.Home_initial.
Proof.
  intros w.
  assert (Hs : sessionStorage w !! "todoUsername" = Some "bob")
    by apply lookup_singleton_eq.
  assert (Hne : "bob" <> "") by discriminate.
  destruct (Home_mount_restores_saved_username Split.Home_initial w)
    as (_ & _ & Hsome & _).
  destruct (Home_mount_restores_saved_username Split.Home_initial (scripted []))
    as (_ & _ & _ & Hnone).
  split; [exact Hs|]. split; [exact Hne|]. split.
  - apply (Hsome "bob" Hs Hne).
  - apply Hnone. left. apply lookup_empty.
Defined.

(** X11: submitting a username that is empty or made of whitespace
    does nothing: the gate stays, nothing is persisted, nothing is
    requested. *)
Theorem blank_username_is_not_submitted :
  forall (input : string),
    blank input = true ->
    (forall env s w,
        Monolith.username env = input ->
        Monolith.handleUsernameSubmit env s w = (Return tt, s, w)) /\
    (forall h w,
        Split.submit_username input h w = (Return tt, h, w)).
Proof.
  intros input Hb. split.
  - intros env s w Hu. unfold Monolith.handleUsernameSubmit.
    rewrite is_empty_trim, Hu, Hb. reflexivity.
  - intros h w. unfold Split.submit_username, Split.UsernameForm_handleSubmit.
    rewrite is_empty_trim, Hb. reflexivity.
Qed.

(** X11 at a single space. *)
Lemma blank_username_is_not_submitted_witness :
  let input := String (ascii_of_nat 32) "" in
  let gate := Monolith.mkState (JArr []) "" (JNum 0) false "" input false in
  blank input = true /\
  Monolith.handleUsernameSubmit gate gate (scripted [])
  = (Return tt, gate, scripted []) /\
  Split.submit_username input Split.Home_initial (scripted [])
  = (Return tt, Split.Home_initial, scripted []).
Proof.
  intros input gate.
  destruct (blank_username_is_not_submitted input eq_refl) as [HM HS].
  split; [reflexivity|]. split; [apply HM; reflexivity|apply HS].
Defined.

(** X12: what follows a submitted username.  In the single component
    the effect of the next render initialises the user under the
    username exactly as typed, surrounding whitespace included; in the
    componentised rendition [TodoApp] is shown for the trimmed username
    and its effect initialises the user under that one.  In both, the
    first request is the GET of the user.  Before a username is set,
    the effect of the single component requests nothing. *)
Theorem submitted_username_is_initialised :
  forall (w : World),
    (forall env s,
        Monolith.isUserSet env = false \/ Monolith.username env = "" ->
        Monolith.effect env s w = (Return tt, s, w)) /\
    (forall s,
        trim (Monolith.username s) <> "" ->
        let s1 := state_after (Monolith.handleUsernameSubmit s s w) in
        exists rest,
          issued w (world_after (Monolith.effect s1 s1 w))
          = GET_user (Monolith.username s) :: rest) /\
    (forall input h app,
        trim input <> "" ->
        let r := Split.submit_username input h w in
        Split.screen (state_after r) = Split.TodoAppScreen (trim input) /\
        exists rest,
          issued (world_after r)
                 (world_after (Split.TodoApp_effect (trim input) app
                                                    (world_after r)))
          = GET_user (trim input) :: rest).
Proof.
  intros w. split; [|split].
  - intros env s [Hset|Hu]; unfold Monolith.effect.
    + rewrite Hset. reflexivity.
    + rewrite Hu, andb_false_r. reflexivity.
  - intros s Hne s1. subst s1.
    assert (Hu : is_empty (Monolith.username s) = false).
    { destruct (Monolith.username s); [destruct Hne; reflexivity|reflexivity]. }
    unfold Monolith.handleUsernameSubmit.
    rewrite (is_empty_false _ Hne). cbn [negb].
    unfold Monolith.setIsUserSet, set_state, state_after. cbn [fst snd].
    unfold Monolith.effect.
    cbn [Monolith.isUserSet Monolith.username andb]. rewrite Hu. cbn [negb].
    eexists. apply issued_app.
    unfold floating.
    match goal with
    | |- context [Monolith.initializeUser ?e ?a ?w0] =>
        pose proof (initializeUser_requests e a w0) as H;
        destruct (Monolith.initializeUser e a w0) as [[o s'] w']
    end.
    exact H.
  - intros input h app Hne r. subst r.
    unfold Split.submit_username, Split.UsernameForm_handleSubmit.
    rewrite (is_empty_false _ Hne). cbn [negb].
    split; [reflexivity|].
    eexists. apply issued_app.
    unfold Split.TodoApp_effect, floating.
    match goal with
    | |- context [Split.initializeUser ?u ?a ?w0] =>
        pose proof (TodoApp_initializeUser_requests u a w0) as H;
        destruct (Split.initializeUser u a w0) as [[o s'] w']
    end.
    exact H.
Qed.

(** X12 at the username bob preceded by a space. *)
Lemma submitted_username_is_initialised_witness :
  let typed := String (ascii_of_nat 32) "bob" in
  let gate := Monolith.mkState (JArr []) "" (JNum 0) false "" typed false in
  let s1 := state_after (Monolith.handleUsernameSubmit gate gate (scripted [])) in
  trim typed <> "" /\
  Monolith.effect gate gate (scripted []) = (Return tt, gate, scripted []) /\
  (exists rest,
      issued (scripted []) (world_after (Monolith.effect s1 s1 (scripted [])))
      = GET_user typed :: rest) /\
  Split.screen (state_after (Split.submit_username typed Split.Home_initial
                                                   (scripted [])))
  = Split.TodoAppScreen "bob".
Proof.
  intros typed gate s1.
  assert (Hne : trim typed <> "") by discriminate.
  destruct (submitted_username_is_initialised (scripted [])) as (H0 & HM & HS).
  split; [exact Hne|].
  split; [apply H0; left; reflexivity|].
  split; [apply (HM gate Hne)|].
  destruct (HS typed Split.Home_initial Split.TodoApp_initial Hne) as [H _].
  exact H.
Defined.

Lemma storage_insert_other (m : gmap string string) k v k' :
  k' <> k -> <[k := v]> m !! k' = m !! k'.
Proof. intros Hne. apply lookup_insert_ne. congruence. Qed.

Lemma storage_delete_insert (m : gmap string string) k v :
  delete k (<[k := v]> m) = delete k m.
Proof. apply delete_insert_eq. Qed.

(** X13: logging in and out writes the key todoUsername of the session
    storage and no other: after a submit every other key reads as
    before, and a logout after a submit leaves the storage as a logout
    alone would, with the gate shown and no request issued. *)
Theorem login_then_logout_only_touches_todoUsername :
  forall (newUsername : string) (h : Split.Home) (w : World),
    let r1 := Split.handleUsernameSubmit newUsername h w in
    let r2 := Split.handleLogout (state_after r1) (world_after r1) in
    (forall key, key <> "todoUsername" ->
                 sessionStorage (world_after r1) !! key = sessionStorage w !! key) /\
    sessionStorage (world_after r2) = delete "todoUsername" (sessionStorage w) /\
    state_after r2 = Split.mkHome "" false /\
    Split.screen (state_after r2) = Split.UsernameFormScreen /\
    issued w (world_after r2) = [] /\
    console (world_after r2) = console w.
Proof.
  intros newUsername h w r1 r2. subst r1 r2.
  unfold Split.handleUsernameSubmit, Split.handleLogout, Split.setUsername,
    Split.setIsUserSet, sessionStorage_setItem, sessionStorage_removeItem,
    bind, set_state, state_after, world_after, issued.
  cbn [fst snd with_storage sessionStorage requests console].
  split; [intros key Hne; apply storage_insert_other, Hne|].
  split; [apply storage_delete_insert|].
  split; [reflexivity|]. split; [reflexivity|].
  split; [apply drop_all|reflexivity].
Qed.

(** X13 at a storage that holds another key. *)
Lemma login_then_logout_only_touches_todoUsername_witness :
  let w := with_storage {["theme" := "dark"]} (scripted []) in
  "theme" <> "todoUsername" /\
  sessionStorage (world_after (Split.handleUsernameSubmit "bob" Split.Home_initial w))
  !! "theme" = sessionStorage w !! "theme".
Proof.
  intros w.
  assert (Hne : "theme" <> "todoUsername") by discriminate.
  split; [exact Hne|].
  destruct (login_then_logout_only_touches_todoUsername "bob" Split.Home_initial w)
    as (H & _).
  apply (H "theme" Hne).
Defined.

(** ** Further properties of the buttons *)

Lemma has_tasks (l : list jsval) :
  l <> [] ->
  js_gt_zero (JNum (Z.of_nat (length l))) = Some true.
Proof.
  intros Hne. destruct l as [|t l]; [congruence|].
  reflexivity.
Qed.

Lemma handleClearAll_returns u env s w :
  outcome_of (Split.handleClearAll u env s w) = Return tt.
Proof. run_split; reflexivity. Qed.

(** X14: Clear All asks before it clears, in the componentised
    rendition only.  With tasks shown and nothing loading, a click
    opens the confirmation dialog: when the user declines, nothing is
    requested and the state is unchanged; when the user accepts, the
    tasks are cleared as by [handleClearAll].  The single component
    clears at once, with no dialog. *)
Theorem clear_all_asks_for_confirmation :
  forall (w : World) (l : list jsval),
    l <> [] ->
    (forall u s,
        Split.tasks s = JArr l ->
        Split.loading s = false ->
        (confirm_answers w (confirm_shown w) = false ->
         Split.click_ClearAll u s w = Some (Return tt, s, with_dialog w)) /\
        (confirm_answers w (confirm_shown w) = true ->
         Split.click_ClearAll u s w
         = Some (Split.handleClearAll u s s (with_dialog w)))) /\
    (forall s,
        Monolith.tasks s = JArr l ->
        Monolith.loading s = false ->
        Monolith.click_ClearAll s w = Some (Monolith.clearAllTasks s s w)).
Proof.
  intros w l Hne. pose proof (has_tasks l Hne) as Hgt. split.
  - intros u s Ht Hl.
    unfold Split.click_ClearAll, Split.TodoApp_ClearAllButton.
    rewrite Ht. cbn [get_prop]. rewrite Hgt.
    unfold Split.ClearAllButton. cbn [negb]. unfold click.
    cbn [btn_disabled btn_onClick]. rewrite Hl.
    unfold bind, window_confirm. fold (with_dialog w).
    split; intros Hanswer; rewrite Hanswer; [reflexivity|].
    unfold floating.
    pose proof (handleClearAll_returns u s s (with_dialog w)) as Hret.
    destruct (Split.handleClearAll u s s (with_dialog w)) as [[o s'] w'].
    unfold outcome_of in Hret. cbn [fst] in Hret. subst o. reflexivity.
  - intros s Ht Hl.
    unfold Monolith.click_ClearAll, Monolith.ClearAllButton.
    rewrite Ht. cbn [get_prop]. rewrite Hgt.
    unfold click. cbn [btn_disabled btn_onClick]. rewrite Hl. reflexivity.
Qed.

(** X14 at a user who declines. *)
Lemma clear_all_asks_for_confirmation_witness :
  let l := [sample_task 7 "milk"] in
  let w := mkWorld (fun _ => Rejected) [] [] ∅ (fun _ => false) 0 in
  l <> [] /\
  confirm_answers w (confirm_shown w) = false /\
  Split.click_ClearAll "bob" (bob_app l) w
  = Some (Return tt, bob_app l, with_dialog w) /\
  Monolith.click_ClearAll (bob_page l "") w
  = Some (Monolith.clearAllTasks (bob_page l "") (bob_page l "") w).
Proof.
  intros l w.
  assert (Hne : l <> []) by discriminate.
  destruct (clear_all_asks_for_confirmation w l Hne) as [HS HM].
  destruct (HS "bob" (bob_app l) eq_refl eq_refl) as [Hno _].
  split; [exact Hne|]. split; [reflexivity|].
  split; [apply Hno; reflexivity|].
  apply HM; reflexivity.
Defined.

(** X15: while a handler is loading, the buttons are dead: a click on
    Add, on the delete button of any task or on Clear All runs no
    handler, so no second request can be started from them, and no
    confirmation dialog is opened. *)
Theorem buttons_are_disabled_while_loading :
  forall (w : World),
    (forall s,
        Monolith.loading s = true ->
        Monolith.click_Add s w = (Return tt, s, w) /\
        (forall task, Monolith.click_Delete s task w = (Return tt, s, w)) /\
        (forall r, Monolith.click_ClearAll s w = Some r ->
                   r = (Return tt, s, w))) /\
    (forall u s,
        Split.loading s = true ->
        (forall input,
            click (Some (Split.TaskInput_AddButton (Split.handleAddTask u)
                                                   (Split.loading s) input))
                  (s, input) w
            = (Return tt, (s, input), w)) /\
        (forall task, Split.click_Delete u s task w = (Return tt, s, w)) /\
        (forall r, Split.click_ClearAll u s w = Some r ->
                   r = (Return tt, s, w))).
Proof.
  intros w. split.
  - intros s Hl. split; [|split].
    + unfold Monolith.click_Add, Monolith.AddButton, click.
      cbn [btn_disabled]. rewrite Hl. reflexivity.
    + intros task. unfold Monolith.click_Delete, Monolith.DeleteButton, click.
      cbn [btn_disabled]. rewrite Hl. reflexivity.
    + intros r. unfold Monolith.click_ClearAll, Monolith.ClearAllButton.
      destruct (get_prop (Monolith.tasks s) p_length) as [len|]; [|discriminate].
      destruct (js_gt_zero len) as [[|]|]; try discriminate;
        unfold click; cbn [btn_disabled]; rewrite ?Hl;
        intros H; injection H as <-; reflexivity.
  - intros u s Hl. split; [|split].
    + intros input. unfold Split.TaskInput_AddButton, click.
      cbn [btn_disabled]. rewrite Hl. reflexivity.
    + intros task. unfold Split.click_Delete, Split.TaskItem_DeleteButton, click.
      cbn [btn_disabled]. rewrite Hl. reflexivity.
    + intros r. unfold Split.click_ClearAll, Split.TodoApp_ClearAllButton.
      destruct (get_prop (Split.tasks s) p_length) as [len|]; [|discriminate].
      destruct (js_gt_zero len) as [[|]|]; try discriminate;
        unfold Split.ClearAllButton, click; cbn [negb btn_disabled];
        rewrite ?Hl; intros H; injection H as <-; reflexivity.
Qed.

(** X15 at a loading page with one task. *)
Lemma buttons_are_disabled_while_loading_witness :
  let busy_page := Monolith.mkState (JArr [sample_task 7 "milk"]) "eggs"
                                    (JNum 1) true "" "bob" true in
  Monolith.loading busy_page = true /\
  Monolith.click_Add busy_page (scripted []) = (Return tt, busy_page, scripted []) /\
  Monolith.click_Delete busy_page (sample_task 7 "milk") (scripted [])
  = (Return tt, busy_page, scripted []).
Proof.
  intros busy_page.
  destruct (buttons_are_disabled_while_loading (scripted [])) as [HM _].
  destruct (HM busy_page eq_refl) as (Hadd & Hdel & _).
  split; [reflexivity|]. split; [exact Hadd|apply Hdel].
Defined.

(** ** The two renditions compared *)

(** X16: the componentised rendition loads, initialises, deletes and
    clears exactly as the single component does: on the same answers of
    the server, the handlers of [TodoApp] issue the same requests, log
    the same lines and end in the state that the single component's
    handlers end in, seen through [TodoApp_of]. *)
Theorem TodoApp_handlers_agree_with_the_single_component :
  forall (env s : Monolith.State) (w : World),
    let u := Monolith.username env in
    Split.loadTasks u (TodoApp_of s) w
    = map_state TodoApp_of (Monolith.loadTasks env s w) /\
    Split.initializeUser u (TodoApp_of s) w
    = map_state TodoApp_of (Monolith.initializeUser env s w) /\
    (forall taskId,
        Split.handleDeleteTask u taskId (TodoApp_of s) w
        = map_state TodoApp_of (Monolith.deleteTask env taskId s w)) /\
    Split.handleClearAll u (TodoApp_of env) (TodoApp_of s) w
    = map_state TodoApp_of (Monolith.clearAllTasks env s w).
Proof.
  intros env s w u. subst u. repeat apply conj; intros.
  - rewrite SplitFacts.TodoApp_loadTasks_run, MonolithFacts.loadTasks_run.
    by_answers; reflexivity.
  - rewrite SplitFacts.TodoApp_initializeUser_run,
      MonolithFacts.initializeUser_run.
    by_answers; reflexivity.
  - rewrite SplitFacts.handleDeleteTask_run, MonolithFacts.deleteTask_run.
    by_answers; reflexivity.
  - rewrite SplitFacts.handleClearAll_run, MonolithFacts.clearAllTasks_run.
    unfold TodoApp_of at 1. cbn [Split.tasks].
    by_answers; reflexivity.
Qed.

(** X17: adding is where the two renditions part.  They agree unless
    the POST is answered ok with a body that is not JSON; on such an
    answer the single component goes on to re-fetch the list, while
    [todoAPI.addTask] fails on parsing the body, so that [TodoApp]
    shows the error of adding and does not re-fetch, although the
    server accepted the task. *)
Theorem adding_differs_on_an_ok_answer_without_json :
  forall (env s : Monolith.State) (w : World),
    blank (Monolith.inputTaskValue env) = false ->
    let u := Monolith.username env in
    let label := trim (Monolith.inputTaskValue env) in
    let single := Monolith.addTask env s w in
    let split := Split.handleAddTask u label (TodoApp_of s) w in
    ((forall resp, network w (length (requests w)) = Fulfilled resp ->
                   ok resp = true -> body resp <> None) ->
     split = map_state TodoApp_of single) /\
    (forall resp, network w (length (requests w)) = Fulfilled resp ->
                  ok resp = true -> body resp = None ->
                  issued w (world_after single)
                  = [POST_todo u label false; GET_user u] /\
                  issued w (world_after split) = [POST_todo u label false] /\
                  Split.error (state_after split)
                  = "Failed to add task. Please try again.").
Proof.
  intros env s w Hb u label single split. subst u label single split.
  rewrite SplitFacts.handleAddTask_run, (MonolithFacts.addTask_run env s w Hb).
  cbv zeta. split.
  - intros Hjson.
    destruct (network w (length (requests w))) as [|resp]; [reflexivity|].
    destruct (ok resp) eqn:Hok; [|reflexivity].
    specialize (Hjson resp eq_refl Hok).
    destruct (body resp); [|congruence].
    rewrite SplitFacts.TodoApp_reload_run, MonolithFacts.reload_run.
    destruct (fetched_todos _); reflexivity.
  - intros resp Hnet Hok Hbody. rewrite Hnet, Hok, Hbody.
    rewrite MonolithFacts.reload_run.
    split; [destruct (fetched_todos _); log_simpl; reflexivity|].
    log_simpl. auto.
Qed.

(** X17 at a POST answered 204 without a body, and at an unreachable server. *)
Lemma adding_differs_on_an_ok_answer_without_json_witness :
  let w := scripted [Fulfilled (mkResponse 204 None);
                     Fulfilled (mkResponse 200
                       (Some (sample_user "bob" [sample_task 8 "eggs"])))] in
  let page := bob_page [] "eggs" in
  blank (Monolith.inputTaskValue page) = false /\
  ok (mkResponse 204 None) = true /\
  issued w (world_after (Monolith.addTask page page w))
  = [POST_todo "bob" "eggs" false; GET_user "bob"] /\
  issued w (world_after (Split.handleAddTask "bob" "eggs" (TodoApp_of page) w))
  = [POST_todo "bob" "eggs" false] /\
  Split.handleAddTask "bob" "eggs" (TodoApp_of page) (scripted [])
  = map_state TodoApp_of (Monolith.addTask page page (scripted [])).
Proof.
  intros w page.
  destruct (adding_differs_on_an_ok_answer_without_json page page w eq_refl)
    as [_ Hdiff].
  destruct (Hdiff (mkResponse 204 None) eq_refl eq_refl eq_refl)
    as (H1 & H2 & _).
  destruct (adding_differs_on_an_ok_answer_without_json page page (scripted [])
              eq_refl) as [Hsame _].
  split; [reflexivity|]. split; [reflexivity|].
  split; [exact H1|]. split; [exact H2|].
  apply Hsame. intros resp Hnet. discriminate.
Defined.

(** ** The API service *)

(** X18: when the functions of [todoAPI] fulfil.  [getUserTasks] and
    [addTask] return the parsed body exactly when the request is
    answered ok with a JSON body; [deleteTask] returns exactly when it
    is answered ok; [initializeUser] returns exactly when the GET is
    answered and, on a 404, the POST is answered too, whatever the
    status of that answer; [clearAllTasks] returns exactly when no
    DELETE is rejected by the network, whatever the statuses.  None of
    them touches the state of a component. *)
Theorem todoAPI_fulfils_exactly_when :
  forall (S : Type) (s : S) (w : World),
    let n := length (requests w) in
    (forall u v,
        outcome_of (Split.todoAPI.getUserTasks u s w) = Return v <->
        exists resp, network w n = Fulfilled resp /\ ok resp = true /\
                     body resp = Some v) /\
    (forall u taskText v,
        outcome_of (Split.todoAPI.addTask u taskText s w) = Return v <->
        exists resp, network w n = Fulfilled resp /\ ok resp = true /\
                     body resp = Some v) /\
    (forall taskId,
        outcome_of (Split.todoAPI.deleteTask taskId s w) = Return tt <->
        exists resp, network w n = Fulfilled resp /\ ok resp = true) /\
    (forall u,
        outcome_of (Split.todoAPI.initializeUser u s w) = Return tt <->
        exists resp, network w n = Fulfilled resp /\
                     (status resp = 404%Z -> network w (Datatypes.S n) <> Rejected)) /\
    (forall l,
        have_ids l = true ->
        (outcome_of (Split.todoAPI.clearAllTasks (JArr l) s w) = Return tt <->
         forall i, (i < length l)%nat -> network w (n + i) <> Rejected)) /\
    (forall u taskText taskId tasks,
        state_after (Split.todoAPI.getUserTasks u s w) = s /\
        state_after (Split.todoAPI.addTask u taskText s w) = s /\
        state_after (Split.todoAPI.deleteTask taskId s w) = s /\
        state_after (Split.todoAPI.initializeUser u s w) = s /\
        state_after (Split.todoAPI.clearAllTasks tasks s w) = s).
Proof.
  intros S s w n. subst n. repeat apply conj.
  - intros u v. unfold Split.todoAPI.getUserTasks. unfold_js. cbn.
    destruct (network w (length (requests w))) as [|resp]; cbn.
    + split; [discriminate|]. intros (r & Hr & _). discriminate.
    + destruct (ok resp) eqn:Hok; cbn.
      * destruct (body resp) as [b|] eqn:Hbody; cbn.
        -- split.
           ++ intros H. injection H as <-. eauto.
           ++ intros (r & Hr & _ & Hb). injection Hr as <-. congruence.
        -- split; [discriminate|].
           intros (r & Hr & _ & Hb). injection Hr as <-. congruence.
      * split; [discriminate|].
        intros (r & Hr & Hok' & _). injection Hr as <-. congruence.
  - intros u taskText v. unfold Split.todoAPI.addTask. unfold_js. cbn.
    destruct (network w (length (requests w))) as [|resp]; cbn.
    + split; [discriminate|]. intros (r & Hr & _). discriminate.
    + destruct (ok resp) eqn:Hok; cbn.
      * destruct (body resp) as [b|] eqn:Hbody; cbn.
        -- split.
           ++ intros H. injection H as <-. eauto.
           ++ intros (r & Hr & _ & Hb). injection Hr as <-. congruence.
        -- split; [discriminate|].
           intros (r & Hr & _ & Hb). injection Hr as <-. congruence.
      * split; [discriminate|].
        intros (r & Hr & Hok' & _). injection Hr as <-. congruence.
  - intros taskId. unfold Split.todoAPI.deleteTask. unfold_js. cbn.
    destruct (network w (length (requests w))) as [|resp]; cbn.
    + split; [discriminate|]. intros (r & Hr & _). discriminate.
    + destruct (ok resp) eqn:Hok; cbn.
      * split; eauto.
      * split; [discriminate|].
        intros (r & Hr & Hok'). injection Hr as <-. congruence.
  - intros u. unfold Split.todoAPI.initializeUser. unfold_js.
    cbn -[Z.eqb].
    destruct (network w (length (requests w))) as [|resp]; cbn -[Z.eqb].
    + split; [discriminate|]. intros (r & Hr & _). discriminate.
    + destruct (status resp =? 404)%Z eqn:H404; cbn -[Z.eqb].
      * apply Z.eqb_eq in H404. rewrite length_app, Nat.add_1_r. cbn.
        destruct (network w (Datatypes.S (length (requests w)))) eqn:Hpost; cbn.
        -- split; [discriminate|].
           intros (r & Hr & Hp). injection Hr as <-. destruct (Hp H404).
           reflexivity.
        -- split; [|reflexivity]. intros _. exists resp.
           split; [reflexivity|]. intros _. discriminate.
      * apply Z.eqb_neq in H404. split; [|reflexivity].
        intros _. exists resp. split; [reflexivity|]. intros H. contradiction.
  - intros l Hids. unfold Split.todoAPI.clearAllTasks, array_map.
    unfold bind at 1. rewrite mapM_delete, Hids.
    unfold bind, Promise_all, outcome_of.
    rewrite <- all_fulfilled_iff.
    destruct (all_fulfilled _) as [rs|]; cbn.
    + split; eauto.
    + split; [discriminate|]. intros [rs Hrs]. discriminate.
  - intros u taskText taskId tasks. repeat apply conj.
    + unfold Split.todoAPI.getUserTasks. unfold_js. cbn.
      destruct (network w _) as [|resp]; cbn; [reflexivity|].
      destruct (ok resp); cbn; [|reflexivity].
      destruct (body resp); reflexivity.
    + unfold Split.todoAPI.addTask. unfold_js. cbn.
      destruct (network w _) as [|resp]; cbn; [reflexivity|].
      destruct (ok resp); cbn; [|reflexivity].
      destruct (body resp); reflexivity.
    + unfold Split.todoAPI.deleteTask. unfold_js. cbn.
      destruct (network w _) as [|resp]; cbn; [reflexivity|].
      destruct (ok resp); reflexivity.
    + unfold Split.todoAPI.initializeUser. unfold_js. cbn -[Z.eqb].
      destruct (network w _) as [|resp]; cbn -[Z.eqb]; [reflexivity|].
      destruct (status resp =? 404)%Z; cbn; [|reflexivity].
      destruct (network w _); reflexivity.
    + unfold Split.todoAPI.clearAllTasks, array_map.
      destruct tasks as [| | | | |l|]; try reflexivity.
      unfold bind at 1. rewrite mapM_delete.
      destruct (have_ids l); [|reflexivity].
      unfold bind, Promise_all. destruct (all_fulfilled _); reflexivity.
Qed.

(** X18 at two DELETE requests answered 500 and 404. *)
Lemma todoAPI_fulfils_exactly_when_witness :
  let l := [sample_task 7 "milk"; sample_task 8 "eggs"] in
  let w := scripted [Fulfilled (mkResponse 500 None);
                     Fulfilled (mkResponse 404 None)] in
  have_ids l = true /\
  outcome_of (Split.todoAPI.clearAllTasks (S := unit) (JArr l) tt w) = Return tt /\
  outcome_of (Split.todoAPI.deleteTask (S := unit) (JNum 7) tt w) <> Return tt.
Proof.
  intros l w.
  destruct (todoAPI_fulfils_exactly_when unit tt w)
    as (_ & _ & Hdel & _ & Hclear & _).
  split; [reflexivity|]. split.
  - apply (Hclear l eq_refl). intros i Hi.
    destruct i as [|[|i]]; [discriminate|discriminate|cbn in Hi; lia].
  - intros Hret. apply Hdel in Hret. destruct Hret as (resp & Hr & Hok).
    injection Hr as <-. discriminate.
Defined.

(** ** The counters *)

Lemma loaded_counters_agree todos :
  todos = JUndefined \/ todos = JNull \/ (exists l, todos = JArr l) ->
  counters_agree (js_or todos (JArr []))
                 (js_or (get_prop_opt todos p_length) (JNum 0)).
Proof.
  intros [->|[->|[l ->]]].
  - exists []. split; reflexivity.
  - exists []. split; reflexivity.
  - exists l. rewrite length_or_zero. split; reflexivity.
Qed.

Ltac keep_counters Hwf Hs :=
  by_answers; log_simpl; state_simpl;
  try exact Hs;
  match goal with
  | H : fetched_todos _ = Some ?t |- _ =>
      apply loaded_counters_agree; exact (Hwf _ _ H)
  end.

(** X19: the two figures of the counter box always agree.  Against a
    server whose users carry an array of todos (or none), every handler
    keeps the invariant that the list shown is an array and that "Total
    Tasks Created" is its length, the number that "Current Tasks"
    shows; the invariant holds when the component mounts. *)
Theorem counters_always_agree :
  forall (w : World),
    todos_are_arrays w ->
    counters_agree (Monolith.tasks Monolith.initial)
                   (Monolith.totalTasksCreated Monolith.initial) /\
    counters_agree (Split.tasks Split.TodoApp_initial)
                   (Split.totalTasksCreated Split.TodoApp_initial) /\
    (forall env s,
        counters_agree (Monolith.tasks s) (Monolith.totalTasksCreated s) ->
        let kept (r : outcome unit * Monolith.State * World) :=
          counters_agree (Monolith.tasks (state_after r))
                         (Monolith.totalTasksCreated (state_after r)) in
        kept (Monolith.loadTasks env s w) /\
        kept (Monolith.initializeUser env s w) /\
        kept (Monolith.addTask env s w) /\
        (forall taskId, kept (Monolith.deleteTask env taskId s w)) /\
        kept (Monolith.clearAllTasks env s w)) /\
    (forall u env s,
        counters_agree (Split.tasks s) (Split.totalTasksCreated s) ->
        let kept (r : outcome unit * Split.TodoApp * World) :=
          counters_agree (Split.tasks (state_after r))
                         (Split.totalTasksCreated (state_after r)) in
        kept (Split.loadTasks u s w) /\
        kept (Split.initializeUser u s w) /\
        (forall taskText, kept (Split.handleAddTask u taskText s w)) /\
        (forall taskId, kept (Split.handleDeleteTask u taskId s w)) /\
        kept (Split.handleClearAll u env s w)).
Proof.
  intros w Hwf.
  split; [exists []; split; reflexivity|].
  split; [exists []; split; reflexivity|].
  split.
  - intros env s Hs. cbv zeta beta. repeat apply conj; intros.
    + rewrite MonolithFacts.loadTasks_run. keep_counters Hwf Hs.
    + rewrite MonolithFacts.initializeUser_run. keep_counters Hwf Hs.
    + destruct (blank (Monolith.inputTaskValue env)) eqn:Hb.
      * unfold Monolith.addTask. rewrite is_empty_trim, Hb. exact Hs.
      * rewrite (MonolithFacts.addTask_run env s w Hb). keep_counters Hwf Hs.
    + rewrite MonolithFacts.deleteTask_run. keep_counters Hwf Hs.
    + rewrite MonolithFacts.clearAllTasks_run. keep_counters Hwf Hs.
  - intros u env s Hs. cbv zeta beta. repeat apply conj; intros.
    + rewrite SplitFacts.TodoApp_loadTasks_run. keep_counters Hwf Hs.
    + rewrite SplitFacts.TodoApp_initializeUser_run. keep_counters Hwf Hs.
    + rewrite SplitFacts.handleAddTask_run. keep_counters Hwf Hs.
    + rewrite SplitFacts.handleDeleteTask_run. keep_counters Hwf Hs.
    + rewrite SplitFacts.handleClearAll_run. keep_counters Hwf Hs.
Qed.

(** X19 at the deletion of one of two tasks. *)
Lemma counters_always_agree_witness :
  let w := scripted [Fulfilled (mkResponse 200 None);
                     Fulfilled (mkResponse 200
                       (Some (sample_user "bob" [sample_task 7 "milk"])))] in
  let page := bob_page [sample_task 7 "milk"; sample_task 8 "eggs"] "" in
  todos_are_arrays w /\
  counters_agree (Monolith.tasks page) (Monolith.totalTasksCreated page) /\
  counters_agree
    (Monolith.tasks (state_after (Monolith.deleteTask page (JNum 8) page w)))
    (Monolith.totalTasksCreated
       (state_after (Monolith.deleteTask page (JNum 8) page w))).
Proof.
  intros w page.
  assert (Hwf : todos_are_arrays w).
  { intros n todos. destruct n as [|[|n]].
    - discriminate.
    - intros H. injection H as <-. right. right. eauto.
    - destruct n; discriminate. }
  assert (Hs : counters_agree (Monolith.tasks page)
                              (Monolith.totalTasksCreated page)).
  { eexists. split; reflexivity. }
  destruct (counters_always_agree w Hwf) as (_ & _ & HM & _).
  destruct (HM page page Hs) as (_ & _ & _ & Hdel & _).
  split; [exact Hwf|]. split; [exact Hs|]. apply Hdel.
Defined.

(** ** The Enter key *)

Lemma not_Enter key : key <> "Enter" -> String.eqb key "Enter" = false.
Proof. intros Hne. apply String.eqb_neq, Hne. Qed.

(** X20: pressing Enter in the input box adds the task as a click on
    an enabled Add button does, and any other key does nothing. *)
Theorem Enter_adds_as_the_Add_button_does :
  forall (w : World),
    (forall s,
        Monolith.loading s = false ->
        blank (Monolith.inputTaskValue s) = false ->
        Monolith.handleKeyDown s "Enter" s w = Monolith.click_Add s w) /\
    (forall env s key,
        key <> "Enter" ->
        Monolith.handleKeyDown env key s w = (Return tt, s, w)) /\
    (forall u app input,
        Split.loading app = false ->
        blank input = false ->
        Split.TaskInput_handleKeyDown (Split.handleAddTask u) input "Enter"
                                      (app, input) w
        = click (Some (Split.TaskInput_AddButton
                         (Split.handleAddTask u) (Split.loading app) input))
                (app, input) w) /\
    (forall u input key s,
        key <> "Enter" ->
        Split.TaskInput_handleKeyDown (Split.handleAddTask u) input key s w
        = (Return tt, s, w)).
Proof.
  intros w. repeat apply conj.
  - intros s Hl Hb.
    unfold Monolith.handleKeyDown, Monolith.click_Add, Monolith.AddButton, click.
    cbn [String.eqb Ascii.eqb Bool.eqb btn_disabled btn_onClick].
    rewrite Hl, is_empty_trim, Hb. cbn [orb]. unfold floating.
    pose proof (MonolithFacts.addTask_run s s w Hb) as Hrun.
    assert (Hret : outcome_of (Monolith.addTask s s w) = Return tt).
    { rewrite Hrun. by_answers; reflexivity. }
    destruct (Monolith.addTask s s w) as [[o s'] w'].
    unfold outcome_of in Hret. cbn [fst] in Hret. subst o. reflexivity.
  - intros env s key Hne. unfold Monolith.handleKeyDown.
    rewrite (not_Enter key Hne). reflexivity.
  - intros u app input Hl Hb.
    unfold Split.TaskInput_handleKeyDown, Split.TaskInput_AddButton, click.
    cbn [String.eqb Ascii.eqb Bool.eqb btn_disabled btn_onClick].
    rewrite Hl, is_empty_trim, Hb. reflexivity.
  - intros u input key s Hne. unfold Split.TaskInput_handleKeyDown.
    rewrite (not_Enter key Hne). reflexivity.
Qed.

(** X20 at the keys Enter and Tab. *)
Lemma Enter_adds_as_the_Add_button_does_witness :
  let page := bob_page [] "eggs" in
  Monolith.loading page = false /\
  blank (Monolith.inputTaskValue page) = false /\
  "Tab" <> "Enter" /\
  Monolith.handleKeyDown page "Enter" page (scripted [])
  = Monolith.click_Add page (scripted []) /\
  Monolith.handleKeyDown page "Tab" page (scripted [])
  = (Return tt, page, scripted []).
Proof.
  intros page.
  assert (Hne : "Tab" <> "Enter") by discriminate.
  destruct (Enter_adds_as_the_Add_button_does (scripted [])) as (HE & HK & _).
  split; [reflexivity|]. split; [reflexivity|]. split; [exact Hne|].
  split; [apply HE; reflexivity|apply HK, Hne].
Defined.
